(** * go-zerodev: EntryPoint 0.7 packing, hashing and the client pipeline

    A shallow embedding of [entrypoint.go] (EntrypointClient07) and
    [client.go] (Client) together with the few go-ethereum primitives
    they call, followed by the properties of the packed layout, of the
    operation hash, of the nonce lookup and of the orchestration. *)

From Stdlib Require Import ZArith List Lia Bool String Ascii.
From Stdlib Require Import Init.Byte Strings.Byte.
From coqutil Require Import Byte Word.LittleEndianList.
Import ListNotations.
Local Open Scope Z_scope.
Local Open Scope list_scope.

(** Go's [[]byte]. Fixed arrays ([common.Address], [common.Hash],
    [[32]byte]) are byte lists too; their lengths are stated where a
    property needs them. *)
Definition bytes := list byte.

(* ================================================================= *)
(** ** Errors and results *)

(** A Go [error]: a message, or an error wrapped with the name of the
    failing step ([errors.Wrap(err, msg)]). *)
Inductive error : Type :=
| ErrMsg (msg : string)
| Wrap (cause : error) (msg : string).

(** The pair [(value, err)] a Go function returns, with [err != nil]
    read as [Err]. *)
Inductive result (A : Type) : Type :=
| Ok (a : A)
| Err (e : error).
Arguments Ok {A} a.
Arguments Err {A} e.

Definition bindR {A B} (r : result A) (k : A -> result B) : result B :=
  match r with
  | Ok a => k a
  | Err e => Err e
  end.

(* ================================================================= *)
(** ** math/big *)

Module big.

(** [n]-byte big-endian form of [w mod 256^n]. *)
Definition be_split (n : nat) (w : Z) : bytes := rev (le_split n w).

(** Big-endian value of a byte string. *)
Definition be_combine (bs : bytes) : Z := le_combine (rev bs).

(** Number of bytes of the magnitude [a >= 0]; zero has none. *)
Definition byteLen (a : Z) : nat :=
  if a =? 0 then 0%nat else Z.to_nat (Z.log2 a / 8 + 1).

(** [big.Int.Bytes]: the big-endian bytes of the absolute value,
    without leading zeros. *)
Definition Bytes (x : Z) : bytes := be_split (byteLen (Z.abs x)) (Z.abs x).

(** [big.NewInt(0).SetBytes(buf)]: [buf] read as a big-endian
    unsigned integer. *)
Definition SetBytes (buf : bytes) : Z := be_combine buf.

End big.

(* ================================================================= *)
(** ** encoding/hex and go-ethereum's common, hexutil *)

Module hex.

Definition hextable : list ascii :=
  list_ascii_of_string "0123456789abcdef".

Definition digit (v : Z) : ascii := nth (Z.to_nat v) hextable "0"%char.

(** [hex.EncodeToString]: two lower-case digits per byte. *)
Fixpoint EncodeToString (src : bytes) : string :=
  match src with
  | [] => EmptyString
  | b :: rest =>
      String (digit (Z.shiftr (byte.unsigned b) 4))
        (String (digit (Z.land (byte.unsigned b) 15)) (EncodeToString rest))
  end.

(** [reverseHexTable]: value of a hex digit, [None] where the table
    holds 0xff. *)
Definition fromHexChar (c : ascii) : option Z :=
  let n := Z.of_nat (nat_of_ascii c) in
  if (48 <=? n) && (n <=? 57) then Some (n - 48)
  else if (97 <=? n) && (n <=? 102) then Some (n - 97 + 10)
  else if (65 <=? n) && (n <=? 70) then Some (n - 65 + 10)
  else None.

Definition InvalidByteError (c : ascii) : error :=
  ErrMsg (String.append "encoding/hex: invalid byte: " (String c EmptyString)).
Definition ErrLength : error :=
  ErrMsg "encoding/hex: odd length hex string".

(** [hex.DecodeString]: the decoded prefix and the error, if any. The
    loop takes two characters at a time; an odd tail is checked for
    an invalid character before the length is reported. *)
Fixpoint DecodeString (s : string) : bytes * option error :=
  match s with
  | EmptyString => ([], None)
  | String p EmptyString =>
      match fromHexChar p with
      | None => ([], Some (InvalidByteError p))
      | Some _ => ([], Some ErrLength)
      end
  | String p (String q rest) =>
      match fromHexChar p, fromHexChar q with
      | None, _ => ([], Some (InvalidByteError p))
      | Some _, None => ([], Some (InvalidByteError q))
      | Some a, Some b =>
          let '(out, e) := DecodeString rest in
          (byte.of_Z (Z.lor (Z.shiftl a 4) b) :: out, e)
      end
  end.

End hex.

Module common.

(** [common.LeftPadBytes]: the slice itself when it already has [l]
    bytes or more. *)
Definition LeftPadBytes (slice : bytes) (l : nat) : bytes :=
  if (l <=? List.length slice)%nat then slice
  else repeat Byte.x00 (l - List.length slice) ++ slice.

(** [common.RightPadBytes]. *)
Definition RightPadBytes (slice : bytes) (l : nat) : bytes :=
  if (l <=? List.length slice)%nat then slice
  else slice ++ repeat Byte.x00 (l - List.length slice).

Definition has0xPrefix (s : string) : bool :=
  match s with
  | String "0"%char (String ("x"%char | "X"%char) _) => true
  | _ => false
  end.

(** [common.FromHex]: drops an optional 0x, completes an odd length
    with a leading zero digit, ignores decoding errors. *)
Definition FromHex (s : string) : bytes :=
  let s := if has0xPrefix s then String.substring 2 (String.length s - 2) s else s in
  let s := if Nat.odd (String.length s) then String "0"%char s else s in
  fst (hex.DecodeString s).

End common.

Module hexutil.

(** [hexutil.Encode], which is also [hexutil.Bytes.String]. *)
Definition Encode (b : bytes) : string :=
  String "0"%char (String "x"%char (hex.EncodeToString b)).

Definition ErrEmptyString : error := ErrMsg "empty hex string".
Definition ErrMissingPrefix : error := ErrMsg "hex string without 0x prefix".
Definition ErrOddLength : error := ErrMsg "hex string of odd length".
Definition ErrSyntax : error := ErrMsg "invalid hex string".

(** [mapError] on the two errors [hex.DecodeString] has. *)
Definition mapError (e : error) : error :=
  match e with
  | ErrMsg "encoding/hex: odd length hex string" => ErrOddLength
  | _ => ErrSyntax
  end.

(** [hexutil.Decode]. *)
Definition Decode (input : string) : result bytes :=
  if (String.length input =? 0)%nat then Err ErrEmptyString
  else if negb (common.has0xPrefix input) then Err ErrMissingPrefix
  else
    match hex.DecodeString (String.substring 2 (String.length input - 2) input) with
    | (b, None) => Ok b
    | (_, Some e) => Err (mapError e)
    end.

End hexutil.

(* ================================================================= *)
(** ** go-ethereum's crypto: Keccak-256 *)

Module crypto.

(** The state of Keccak-f[1600]: 25 lanes of 64 bits, lane [(x, y)] at
    index [x + 5 * y]. *)
Definition lanes := list Z.

Definition mask64 : Z := Z.ones 64.

Definition rotl64 (x n : Z) : Z :=
  Z.land (Z.lor (Z.shiftl x n) (Z.shiftr x (64 - n))) mask64.

Definition lane (st : lanes) (x y : nat) : Z :=
  nth ((x mod 5) + 5 * (y mod 5))%nat st 0.

Definition idx25 : list nat := seq 0 25.

Definition roundConstants : list Z :=
  [ 0x0000000000000001; 0x0000000000008082; 0x800000000000808A;
    0x8000000080008000; 0x000000000000808B; 0x0000000080000001;
    0x8000000080008081; 0x8000000000008009; 0x000000000000008A;
    0x0000000000000088; 0x0000000080008009; 0x000000008000000A;
    0x000000008000808B; 0x800000000000008B; 0x8000000000008089;
    0x8000000000008003; 0x8000000000008002; 0x8000000000000080;
    0x000000000000800A; 0x800000008000000A; 0x8000000080008081;
    0x8000000000008080; 0x0000000080000001; 0x8000000080008008 ].

Definition rotationOffsets : list Z :=
  [  0;  1; 62; 28; 27;
    36; 44;  6; 55; 20;
     3; 10; 43; 25; 39;
    41; 45; 15; 21;  8;
    18;  2; 61; 56; 14 ].

Definition theta (st : lanes) : lanes :=
  let C := map (fun x => fold_left Z.lxor (map (lane st x) (seq 0 5)) 0) (seq 0 5) in
  let D := map (fun x => Z.lxor (nth ((x + 4) mod 5) C 0)
                                (rotl64 (nth ((x + 1) mod 5) C 0) 1)) (seq 0 5) in
  map (fun i => Z.lxor (nth i st 0) (nth (i mod 5) D 0)) idx25.

Definition rhoPi (st : lanes) : lanes :=
  map (fun j =>
         let X := (j mod 5)%nat in
         let Y := (j / 5)%nat in
         let x := ((X + 3 * Y) mod 5)%nat in
         rotl64 (lane st x X) (nth (x + 5 * X) rotationOffsets 0)) idx25.

Definition chi (st : lanes) : lanes :=
  map (fun j =>
         let x := (j mod 5)%nat in
         let y := (j / 5)%nat in
         Z.lxor (lane st x y)
                (Z.land (Z.lxor (lane st (x + 1) y) mask64) (lane st (x + 2) y)))
      idx25.

Definition iota (rc : Z) (st : lanes) : lanes :=
  match st with
  | [] => []
  | a :: rest => Z.lxor a rc :: rest
  end.

Definition keccakF1600 (st : lanes) : lanes :=
  fold_left (fun s rc => iota rc (chi (rhoPi (theta s)))) roundConstants st.

(** Rate of Keccak-256 in bytes. *)
Definition rate : nat := 136.

(** Keccak's original multi-rate padding (domain byte 0x01). *)
Definition pad (len : nat) : bytes :=
  let q := (rate - len mod rate)%nat in
  if (q =? 1)%nat then [Byte.x81]
  else Byte.x01 :: repeat Byte.x00 (q - 2) ++ [Byte.x80].

Fixpoint blocks (n : nat) (data : bytes) : list bytes :=
  match n with
  | O => []
  | S n' => firstn rate data :: blocks n' (skipn rate data)
  end.

Definition absorb (st : lanes) (block : bytes) : lanes :=
  keccakF1600
    (map (fun i =>
            Z.lxor (nth i st 0)
                   (if (i <? 17)%nat
                    then le_combine (firstn 8 (skipn (8 * i) block))
                    else 0)) idx25).

(** [crypto.Keccak256] on one byte string. *)
Definition Keccak256 (data : bytes) : bytes :=
  let padded := data ++ pad (List.length data) in
  let st := fold_left absorb (blocks (List.length padded / rate) padded) (repeat 0 25) in
  flat_map (fun i => le_split 8 (nth i st 0)) (seq 0 4).

(** [crypto.Keccak256Hash]: the same digest as a [common.Hash]. *)
Definition Keccak256Hash (data : bytes) : bytes := Keccak256 data.

End crypto.

(* ================================================================= *)
(** ** go-ethereum's accounts/abi, for the static types in use *)

Module abi.

(** [abi.Type], restricted to the kinds the entry point packs. *)
Inductive type : Type :=
| AddressTy
| UintTy (size : nat)
| FixedBytesTy (size : nat).

(** A Go value handed to [Pack] as [interface{}]: a byte array of any
    length ([common.Address], [common.Hash], [[32]byte]), a non-nil
    [*big.Int], or a byte slice. *)
Inductive value : Type :=
| Array (elems : bytes)
| BigInt (x : Z)
| Slice (elems : bytes).

Record Argument : Type := { Name : string; Type_ : type }.
Definition Arguments := list Argument.

Definition typeErr : error := ErrMsg "abi: cannot use value as type in argument".

(** [typeCheck]: the reflected kind of the value must be the kind of the
    ABI type's Go type ([uintN] is a [*big.Int] unless N is 8, 16, 32 or
    64), and a fixed byte array must have the declared size. *)
Definition typeCheck (t : type) (v : value) : result unit :=
  match t, v with
  | AddressTy, Array _ => Ok tt
  | UintTy size, BigInt _ =>
      if existsb (Nat.eqb size) [8; 16; 32; 64]%nat then Err typeErr else Ok tt
  | FixedBytesTy size, Array elems =>
      if (size =? List.length elems)%nat then Ok tt else Err typeErr
  | _, _ => Err typeErr
  end.

(** [math.U256Bytes]: the value reduced to 256 bits (two's complement
    for a negative one), as 32 big-endian bytes. *)
Definition U256Bytes (n : Z) : bytes := big.be_split 32 (Z.land n (Z.ones 256)).

(** [packElement]. *)
Definition packElement (t : type) (v : value) : bytes :=
  match t, v with
  | AddressTy, (Array elems | Slice elems) => common.LeftPadBytes elems 32
  | FixedBytesTy _, (Array elems | Slice elems) => common.RightPadBytes elems 32
  | UintTy _, BigInt x => U256Bytes x
  | _, _ => []
  end.

(** [Type.pack] on an elementary type. *)
Definition pack (t : type) (v : value) : result bytes :=
  bindR (typeCheck t v) (fun _ => Ok (packElement t v)).

Fixpoint packAll (args : Arguments) (vals : list value) : result bytes :=
  match args, vals with
  | a :: args', v :: vals' =>
      bindR (pack (Type_ a) v) (fun packed =>
      bindR (packAll args' vals') (fun rest => Ok (packed ++ rest)))
  | _, _ => Ok []
  end.

Definition countErr : error := ErrMsg "argument count mismatch".

(** [Arguments.Pack]: all the types here are static, so the encoding is
    the concatenation of the elements' words. *)
Definition Pack (args : Arguments) (vals : list value) : result bytes :=
  if (List.length vals =? List.length args)%nat then packAll args vals
  else Err countErr.

Record Method : Type := { MName : string; ID : bytes; Inputs : Arguments }.

(** A parsed [abi.ABI]: its methods by name. *)
Definition ABI := list Method.

Fixpoint lookup (methods : ABI) (name : string) : option Method :=
  match methods with
  | [] => None
  | m :: rest => if String.eqb (MName m) name then Some m else lookup rest name
  end.

(** The error of [ABI.Pack] for an unknown name:
    [fmt.Errorf("method '%s' not found", name)]. *)
Definition notFound (name : string) : error :=
  ErrMsg (String.append "method '" (String.append name "' not found")).

(** [ABI.Pack]: the method's 4-byte selector followed by its packed
    arguments. *)
Definition PackMethod (a : ABI) (name : string) (vals : list value) : result bytes :=
  match lookup a name with
  | None => Err (notFound name)
  | Some m => bindR (Pack (Inputs m) vals) (fun arguments => Ok (ID m ++ arguments))
  end.

Definition bytesOfString (s : string) : bytes :=
  map byte_of_ascii (list_ascii_of_string s).

(** The selector of a method signature. *)
Definition selector (sig : string) : bytes :=
  firstn 4 (crypto.Keccak256 (bytesOfString sig)).

End abi.

(* ================================================================= *)
(** ** The user operation *)

(** Modelled from the spec: the [UserOperation] struct is declared
    outside the files at hand; its fields are those of the data model
    and of the field accesses in the code. A [*big.Int] field holds a
    non-nil integer. *)
Record UserOperation : Type := {
  Sender : bytes;
  Nonce : Z;
  CallData : bytes;
  CallGasLimit : Z;
  VerificationGasLimit : Z;
  PreVerificationGas : Z;
  MaxFeePerGas : Z;
  MaxPriorityFeePerGas : Z;
  Paymaster : bytes;
  PaymasterData : bytes;
  Signature : bytes
}.

(** Modelled from the spec: the package-level ABI type descriptors
    [address], [uint256] and [bytes32] are declared outside the files at
    hand; they are the address / uint256 / bytes32 types of the tuple
    encoding. *)
Definition address : abi.type := abi.AddressTy.
Definition uint256 : abi.type := abi.UintTy 256.
Definition bytes32 : abi.type := abi.FixedBytesTy 32.

(* ================================================================= *)
(** ** entrypoint.go *)

Definition EntryPointVersion07 : string := "0.7".

(** [entryPointAddress07], as [common.HexToAddress] reads it. *)
Definition entryPointAddress07 : bytes :=
  common.FromHex "0x0000000071727De22E5E9d8BAf0edAc6f37da032".

(** [entrypointAbi07] once parsed by [abi.JSON]: the single view
    function [getNonce(address sender, uint192 key) returns (uint256)]. *)
Definition entrypointAbi07 : abi.ABI :=
  [ {| abi.MName := "getNonce";
       abi.ID := abi.selector "getNonce(address,uint192)";
       abi.Inputs := [ {| abi.Name := "sender"; abi.Type_ := abi.AddressTy |};
                       {| abi.Name := "key"; abi.Type_ := abi.UintTy 192 |} ] |} ].

(** [computeKey]: the derivation from the account is commented out in
    the source; the body is [return big.NewInt(0)]. *)
Definition computeKey (account : bytes) : Z := 0.

(** [createPackedBuffer]: two writes to a [bytes.Buffer]. *)
Definition createPackedBuffer (first second : bytes) : bytes :=
  common.LeftPadBytes first 16 ++ common.LeftPadBytes second 16.


(** [toArray32]: [copy] into a zeroed [[32]byte] moves
    [min(32, len(buffer))] bytes. *)
Definition toArray32 (buffer : bytes) : bytes :=
  firstn 32 buffer ++ repeat Byte.x00 (32 - List.length buffer).

Definition packArgs : abi.Arguments :=
  [ {| abi.Name := "sender"; abi.Type_ := address |};
    {| abi.Name := "nonce"; abi.Type_ := uint256 |};
    {| abi.Name := "hashInitCode"; abi.Type_ := bytes32 |};
    {| abi.Name := "hashCallData"; abi.Type_ := bytes32 |};
    {| abi.Name := "accountGasLimits"; abi.Type_ := bytes32 |};
    {| abi.Name := "preVerificationGas"; abi.Type_ := uint256 |};
    {| abi.Name := "gasFees"; abi.Type_ := bytes32 |};
    {| abi.Name := "hashPaymasterAndData"; abi.Type_ := bytes32 |} ].

(** [PackUserOperation]; the receiver is unused. *)
Definition PackUserOperation (op : UserOperation) : result bytes :=
  let hashedInitCode := crypto.Keccak256Hash (common.FromHex "0x") in
  let hashedCallData := crypto.Keccak256Hash (CallData op) in
  let accountGasLimits :=
    createPackedBuffer (big.Bytes (VerificationGasLimit op))
                       (big.Bytes (CallGasLimit op)) in
  let gasFees :=
    createPackedBuffer (big.Bytes (MaxPriorityFeePerGas op))
                       (big.Bytes (MaxFeePerGas op)) in
  let hashedPaymasterAndData := crypto.Keccak256Hash [] in
  match abi.Pack packArgs
          [ abi.Array (Sender op);
            abi.BigInt (Nonce op);
            abi.Array hashedInitCode;
            abi.Array hashedCallData;
            abi.Array (toArray32 accountGasLimits);
            abi.BigInt (PreVerificationGas op);
            abi.Array (toArray32 gasFees);
            abi.Array hashedPaymasterAndData ] with
  | Err err => Err err
  | Ok packed => Ok packed
  end.

(* ================================================================= *)
(** ** Calls to the outside world *)

(** A call that talks to a node, to the paymaster or to the bundler is
    a function of the state of the world: it returns its Go results and
    the world after the call. *)
Definition IO (World A : Type) : Type := World -> A * World.

Definition ret {World A} (a : A) : IO World A := fun w => (a, w).

Definition bind {World A B} (m : IO World A) (k : A -> IO World B) : IO World B :=
  fun w => let (a, w') := m w in k a w'.

Notation "x <- m ;; k" := (bind m (fun x => k))
  (at level 61, m at next level, right associativity).
Notation "m ;;; k" := (bind m (fun _ => k))
  (at level 61, right associativity).

(** The message of an [eth_call]: the anonymous struct with [to] and
    [data]. *)
Record CallMsg : Type := { To : bytes; Data : bytes }.

(** Modelled from the spec: [types.RPCClient] is declared outside the
    files at hand; it is the opaque call interface of the transport. A
    call with a [*hexutil.Bytes] result either fails or fills the byte
    string. *)
Record RPCClient (World : Type) : Type := {
  CallContext : string -> CallMsg -> IO World (result bytes)
}.
Arguments CallContext {World} _ _ _.

Record EntrypointClient07 (World : Type) : Type := {
  e_Client : RPCClient World;
  e_Address : bytes;
  e_Abi : abi.ABI;
  e_ChainID : Z
}.
Arguments e_Client {World} _.
Arguments e_Address {World} _.
Arguments e_Abi {World} _.
Arguments e_ChainID {World} _.

(** [abi.JSON] on the constant [entrypointAbi07]. *)
Definition parseEntrypointAbi07 : result abi.ABI := Ok entrypointAbi07.

Definition NewEntrypoint07 {World} (rpcClient : RPCClient World) (chainID : Z)
  : result (EntrypointClient07 World) :=
  match parseEntrypointAbi07 with
  | Err err => Err (Wrap err "failed to parse entrypoint abi")
  | Ok parsedAbi =>
      Ok {| e_Client := rpcClient;
            e_Address := entryPointAddress07;
            e_Abi := parsedAbi;
            e_ChainID := chainID |}
  end.

Definition GetAddress {World} (e : EntrypointClient07 World) : bytes := e_Address e.

Definition hashArgs : abi.Arguments :=
  [ {| abi.Name := ""; abi.Type_ := bytes32 |};
    {| abi.Name := ""; abi.Type_ := address |};
    {| abi.Name := ""; abi.Type_ := uint256 |} ].

(** [GetUserOperationHash]. *)
Definition GetUserOperationHash {World} (e : EntrypointClient07 World)
  (op : UserOperation) : result bytes :=
  match PackUserOperation op with
  | Err err => Err (Wrap err "failed to pack user operation")
  | Ok packedOp =>
      match abi.Pack hashArgs
              [ abi.Array (crypto.Keccak256Hash packedOp);
                abi.Array (e_Address e);
                abi.BigInt (e_ChainID e) ] with
      | Err err => Err (Wrap err "failed to pack user operation for hashing")
      | Ok packed => Ok (crypto.Keccak256Hash packed)
      end
  end.

(** [GetNonce]. *)
Definition GetNonce {World} (e : EntrypointClient07 World) (account : bytes)
  : IO World (result Z) :=
  let key := computeKey account in
  match abi.PackMethod (e_Abi e) "getNonce" [abi.Array account; abi.BigInt key] with
  | Err err => ret (Err (Wrap err "failed to pack getNonce call data"))
  | Ok callData =>
      let msg := {| To := e_Address e; Data := callData |} in
      r <- CallContext (e_Client e) "eth_call" msg ;;
      match r with
      | Err err => ret (Err (Wrap err "failed to call getNonce eth_call"))
      | Ok hex =>
          match hexutil.Decode (hexutil.Encode hex) with
          | Err err => ret (Err (Wrap err "failed to decode getNonce hex"))
          | Ok decoded => ret (Ok (big.SetBytes decoded))
          end
      end
  end.

(** The [Entrypoint] interface. *)
Module Entrypoint.
Record t (World : Type) : Type := {
  GetAddress : bytes;
  GetNonce : bytes -> IO World (result Z);
  GetUserOperationHash : UserOperation -> result bytes;
  PackUserOperation : UserOperation -> result bytes
}.
Arguments GetAddress {World} _.
Arguments GetNonce {World} _ _.
Arguments GetUserOperationHash {World} _ _.
Arguments PackUserOperation {World} _ _.
End Entrypoint.

(** [*EntrypointClient07] implements [Entrypoint]. *)
Definition asEntrypoint {World} (e : EntrypointClient07 World) : Entrypoint.t World :=
  {| Entrypoint.GetAddress := GetAddress e;
     Entrypoint.GetNonce := GetNonce e;
     Entrypoint.GetUserOperationHash := GetUserOperationHash e;
     Entrypoint.PackUserOperation := PackUserOperation |}.

(* ================================================================= *)
(** ** client.go *)

(** Modelled from the spec: the paymaster's answer, the bundler's gas
    price tiers and the two gateways are declared outside the files at
    hand; they are the interfaces of section 6 of the specification. *)
Record SponsorUserOperationResponse : Type := {
  sr_Paymaster : bytes;
  sr_PaymasterData : bytes;
  sr_PreVerificationGas : Z;
  sr_VerificationGasLimit : Z;
  sr_CallGasLimit : Z
}.

Record GasPrice : Type := { gp_MaxFeePerGas : Z; gp_MaxPriorityFeePerGas : Z }.
Record GasPriceResponse : Type := { gpr_Standard : GasPrice }.

(** [SponsorUserOperation] receives [&op]: besides its results it yields
    the operation as the callee left it. *)
Record PaymasterClient (World : Type) : Type := {
  pm_SponsorUserOperation :
    UserOperation -> IO World (UserOperation * result SponsorUserOperationResponse)
}.
Arguments pm_SponsorUserOperation {World} _ _.

(** [GetUserOperationReceipt] keeps Go's pair of a receipt pointer and
    an error. *)
Record BundlerClient (World Receipt : Type) : Type := {
  b_GetUserOperationGasPrice : IO World (result GasPriceResponse);
  b_SendUserOperation : UserOperation -> IO World (result bytes);
  b_GetUserOperationReceipt : bytes -> Z -> Z -> IO World (option Receipt * option error)
}.
Arguments b_GetUserOperationGasPrice {World Receipt} _.
Arguments b_SendUserOperation {World Receipt} _ _.
Arguments b_GetUserOperationReceipt {World Receipt} _ _ _ _.

Record AccountSigner (World : Type) : Type := {
  s_GetAddress : bytes;
  s_SignUserOperationHash : bytes -> IO World (result bytes)
}.
Arguments s_GetAddress {World} _.
Arguments s_SignUserOperationHash {World} _ _.

Record ClientConfig (PrivateKey : Type) : Type := {
  cfg_AccountAddress : bytes;
  cfg_AccountPK : option PrivateKey;
  cfg_EntryPointVersion : string;
  cfg_RpcURL : string;
  cfg_PaymasterURL : option string;
  cfg_BundlerURL : option string;
  cfg_ChainID : option Z;
  cfg_ReceiptPollingDelaySeconds : Z;
  cfg_ReceiptPollingRetries : Z
}.
Arguments cfg_AccountAddress {PrivateKey} _.
Arguments cfg_AccountPK {PrivateKey} _.
Arguments cfg_EntryPointVersion {PrivateKey} _.
Arguments cfg_RpcURL {PrivateKey} _.
Arguments cfg_PaymasterURL {PrivateKey} _.
Arguments cfg_BundlerURL {PrivateKey} _.
Arguments cfg_ChainID {PrivateKey} _.
Arguments cfg_ReceiptPollingDelaySeconds {PrivateKey} _.
Arguments cfg_ReceiptPollingRetries {PrivateKey} _.

Record UserOperationResult (Receipt : Type) : Type := {
  r_UserOperationHash : bytes;
  r_Receipt : option Receipt
}.
Arguments r_UserOperationHash {Receipt} _.
Arguments r_Receipt {Receipt} _.

Record RpcClients (Conn : Type) : Type := {
  rc_Network : Conn;
  rc_Paymaster : Conn;
  rc_Bundler : Conn
}.
Arguments rc_Network {Conn} _.
Arguments rc_Paymaster {Conn} _.
Arguments rc_Bundler {Conn} _.

Record Client (World Receipt Conn : Type) : Type := {
  c_Signer : AccountSigner World;
  c_EntryPoint : Entrypoint.t World;
  c_PaymasterClient : PaymasterClient World;
  c_BundlerClient : BundlerClient World Receipt;
  c_ChainID : Z;
  c_RpcClients : RpcClients Conn;
  c_ReceiptPollingDelay : Z;
  c_ReceiptPollingRetries : Z
}.
Arguments c_Signer {World Receipt Conn} _.
Arguments c_EntryPoint {World Receipt Conn} _.
Arguments c_PaymasterClient {World Receipt Conn} _.
Arguments c_BundlerClient {World Receipt Conn} _.
Arguments c_ChainID {World Receipt Conn} _.
Arguments c_RpcClients {World Receipt Conn} _.
Arguments c_ReceiptPollingDelay {World Receipt Conn} _.
Arguments c_ReceiptPollingRetries {World Receipt Conn} _.

(** An operation as [var op UserOperation] declares it: a zero
    address, nil slices; an unset [*big.Int] field is written 0 here. *)
Definition emptyOp : UserOperation :=
  {| Sender := repeat Byte.x00 20; Nonce := 0; CallData := [];
     CallGasLimit := 0; VerificationGasLimit := 0; PreVerificationGas := 0;
     MaxFeePerGas := 0; MaxPriorityFeePerGas := 0;
     Paymaster := []; PaymasterData := []; Signature := [] |}.

(** Field assignments [op.F = v]. *)
Definition setIdentity (sender : bytes) (nonce : Z) (callData : bytes)
  (op : UserOperation) : UserOperation :=
  {| Sender := sender; Nonce := nonce; CallData := callData;
     CallGasLimit := CallGasLimit op;
     VerificationGasLimit := VerificationGasLimit op;
     PreVerificationGas := PreVerificationGas op;
     MaxFeePerGas := MaxFeePerGas op;
     MaxPriorityFeePerGas := MaxPriorityFeePerGas op;
     Paymaster := Paymaster op; PaymasterData := PaymasterData op;
     Signature := Signature op |}.

Definition setFees (maxFee maxPriorityFee : Z) (op : UserOperation) : UserOperation :=
  {| Sender := Sender op; Nonce := Nonce op; CallData := CallData op;
     CallGasLimit := CallGasLimit op;
     VerificationGasLimit := VerificationGasLimit op;
     PreVerificationGas := PreVerificationGas op;
     MaxFeePerGas := maxFee;
     MaxPriorityFeePerGas := maxPriorityFee;
     Paymaster := Paymaster op; PaymasterData := PaymasterData op;
     Signature := Signature op |}.

Definition setSponsorship (r : SponsorUserOperationResponse)
  (op : UserOperation) : UserOperation :=
  {| Sender := Sender op; Nonce := Nonce op; CallData := CallData op;
     CallGasLimit := sr_CallGasLimit r;
     VerificationGasLimit := sr_VerificationGasLimit r;
     PreVerificationGas := sr_PreVerificationGas r;
     MaxFeePerGas := MaxFeePerGas op;
     MaxPriorityFeePerGas := MaxPriorityFeePerGas op;
     Paymaster := sr_Paymaster r; PaymasterData := sr_PaymasterData r;
     Signature := Signature op |}.

Definition setSignature (signature : bytes) (op : UserOperation) : UserOperation :=
  {| Sender := Sender op; Nonce := Nonce op; CallData := CallData op;
     CallGasLimit := CallGasLimit op;
     VerificationGasLimit := VerificationGasLimit op;
     PreVerificationGas := PreVerificationGas op;
     MaxFeePerGas := MaxFeePerGas op;
     MaxPriorityFeePerGas := MaxPriorityFeePerGas op;
     Paymaster := Paymaster op; PaymasterData := PaymasterData op;
     Signature := signature |}.

Section ClientMethods.

Context {World Receipt Conn : Type}.
Implicit Type c : Client World Receipt Conn.

(** [GetUserOperationAndHashToSign]; [callData] is the slice behind the
    pointer the caller passes. *)
Definition GetUserOperationAndHashToSign c (sender : bytes) (callData : bytes)
  : IO World (result (UserOperation * bytes)) :=
  let op := emptyOp in
  r <- Entrypoint.GetNonce (c_EntryPoint c) sender ;;
  match r with
  | Err err => ret (Err err)
  | Ok nonce =>
      let op := setIdentity sender nonce callData op in
      r <- b_GetUserOperationGasPrice (c_BundlerClient c) ;;
      match r with
      | Err err => ret (Err err)
      | Ok gasPrice =>
          let op := setFees (gp_MaxFeePerGas (gpr_Standard gasPrice))
                            (gp_MaxPriorityFeePerGas (gpr_Standard gasPrice)) op in
          sponsored <- pm_SponsorUserOperation (c_PaymasterClient c) op ;;
          let '(op, r) := sponsored in
          match r with
          | Err err => ret (Err err)
          | Ok sponsorResponse =>
              let op := setSponsorship sponsorResponse op in
              match Entrypoint.GetUserOperationHash (c_EntryPoint c) op with
              | Err err => ret (Err err)
              | Ok opHash => ret (Ok (op, opHash))
              end
          end
      end
  end.

(** [SendSignedUserOperation]: the error of the receipt poll is
    assigned to the blank identifier. *)
Definition SendSignedUserOperation c (signedOp : UserOperation) (waitForReceipt : bool)
  : IO World (result (UserOperationResult Receipt)) :=
  r <- b_SendUserOperation (c_BundlerClient c) signedOp ;;
  match r with
  | Err err => ret (Err err)
  | Ok response =>
      receipt <-
        (if waitForReceipt
         then polled <- b_GetUserOperationReceipt (c_BundlerClient c) response
                          (c_ReceiptPollingDelay c) (c_ReceiptPollingRetries c) ;;
              ret (fst polled)
         else ret None) ;;
      ret (Ok {| r_UserOperationHash := response; r_Receipt := receipt |})
  end.

(** [SendUserOperation]. *)
Definition SendUserOperation c (callData : bytes) (waitForReceipt : bool)
  : IO World (result (UserOperationResult Receipt)) :=
  r <- GetUserOperationAndHashToSign c (s_GetAddress (c_Signer c)) callData ;;
  match r with
  | Err err => ret (Err err)
  | Ok (op, opHash) =>
      r <- s_SignUserOperationHash (c_Signer c) opHash ;;
      match r with
      | Err err => ret (Err err)
      | Ok signature =>
          SendSignedUserOperation c (setSignature signature op) waitForReceipt
      end
  end.

(** [GetUserOperationReceipt]. *)
Definition GetUserOperationReceipt c (res : UserOperationResult Receipt)
  : IO World (option Receipt * option error) :=
  b_GetUserOperationReceipt (c_BundlerClient c) (r_UserOperationHash res)
    (c_ReceiptPollingDelay c) (c_ReceiptPollingRetries c).

End ClientMethods.

(** [NewClient], over the transport ([rpc.Dial], [rpc.Client.Close], an
    [*rpc.Client] used as a [types.RPCClient]) and the constructors of
    the paymaster client, the bundler client and the signer, which are
    declared outside the files at hand. A nil [RpcURL] is not checked by
    the code and is not a value of the configuration here. *)
Section Construction.

Context {World Receipt Conn PrivateKey : Type}.
Variable Dial : string -> IO World (result Conn).
Variable Close : Conn -> IO World unit.
Variable rpcClient : Conn -> RPCClient World.
Variable NewPaymasterClient :
  Conn -> Entrypoint.t World -> Z -> IO World (result (PaymasterClient World)).
Variable NewBundlerClient :
  Conn -> Entrypoint.t World -> Z -> IO World (result (BundlerClient World Receipt)).
Variable NewSmartAccountPrivateKeySigner :
  Conn -> bytes -> PrivateKey -> IO World (result (AccountSigner World)).

Definition requiredErr : error :=
  ErrMsg "accountPK, paymasterURL, bundlerURL, entryPointVersion and chainID are required".

(** The body of [NewClient] after the check of the configuration. *)
Definition connect (config : ClientConfig PrivateKey) (accountPK : PrivateKey)
  (paymasterURL bundlerURL : string) (chainID : Z)
  : IO World (result (Client World Receipt Conn)) :=
  r <- Dial (cfg_RpcURL config) ;;
  match r with
  | Err err => ret (Err (Wrap err "failed to connect to RPC"))
  | Ok networkRpc =>
  r <- Dial paymasterURL ;;
  match r with
  | Err err =>
      Close networkRpc ;;;
      ret (Err (Wrap err "failed to connect to Paymaster"))
  | Ok paymasterRpc =>
  r <- Dial bundlerURL ;;
  match r with
  | Err err =>
      Close paymasterRpc ;;;
      Close networkRpc ;;;
      ret (Err (Wrap err "failed to connect to Bundler"))
  | Ok bundleRpc =>
  match NewEntrypoint07 (rpcClient networkRpc) chainID with
  | Err err =>
      Close networkRpc ;;;
      Close paymasterRpc ;;;
      Close networkRpc ;;;
      ret (Err (Wrap err "failed to initialize entrypoint"))
  | Ok entrypoint =>
  r <- NewPaymasterClient paymasterRpc (asEntrypoint entrypoint) chainID ;;
  match r with
  | Err err =>
      Close networkRpc ;;;
      Close paymasterRpc ;;;
      Close networkRpc ;;;
      ret (Err (Wrap err "failed to initialize paymasterClient"))
  | Ok paymasterClient =>
  r <- NewBundlerClient bundleRpc (asEntrypoint entrypoint) chainID ;;
  match r with
  | Err err =>
      Close networkRpc ;;;
      Close paymasterRpc ;;;
      Close networkRpc ;;;
      ret (Err (Wrap err "failed to initialize bundlerClient"))
  | Ok bundlerClient =>
  r <- NewSmartAccountPrivateKeySigner networkRpc (cfg_AccountAddress config) accountPK ;;
  match r with
  | Err err =>
      Close networkRpc ;;;
      Close paymasterRpc ;;;
      Close networkRpc ;;;
      ret (Err (Wrap err "failed to initialize signer"))
  | Ok signer =>
      let pollingDelaySeconds :=
        if 0 <? cfg_ReceiptPollingDelaySeconds config
        then cfg_ReceiptPollingDelaySeconds config else 10 in
      let pollingRetries :=
        if 0 <? cfg_ReceiptPollingRetries config
        then cfg_ReceiptPollingRetries config else 24 in
      ret (Ok {| c_Signer := signer;
                 c_PaymasterClient := paymasterClient;
                 c_BundlerClient := bundlerClient;
                 c_EntryPoint := asEntrypoint entrypoint;
                 c_ChainID := chainID;
                 c_RpcClients := {| rc_Network := networkRpc;
                                    rc_Paymaster := paymasterRpc;
                                    rc_Bundler := bundleRpc |};
                 c_ReceiptPollingDelay := pollingDelaySeconds;
                 c_ReceiptPollingRetries := pollingRetries |})
  end end end end end end end.

(** [NewClient]. *)
Definition NewClient (config : ClientConfig PrivateKey)
  : IO World (result (Client World Receipt Conn)) :=
  match cfg_AccountPK config, cfg_PaymasterURL config, cfg_BundlerURL config,
        cfg_ChainID config with
  | Some accountPK, Some paymasterURL, Some bundlerURL, Some chainID =>
      if String.eqb (cfg_EntryPointVersion config) EntryPointVersion07
      then connect config accountPK paymasterURL bundlerURL chainID
      else ret (Err requiredErr)
  | _, _, _, _ => ret (Err requiredErr)
  end.

(** [Client.Close]. *)
Definition ClientClose (c : Client World Receipt Conn) : IO World unit :=
  Close (rc_Network (c_RpcClients c)) ;;;
  Close (rc_Paymaster (c_RpcClients c)) ;;;
  Close (rc_Bundler (c_RpcClients c)).

End Construction.

(* ================================================================= *)
(** ** Reference layouts, sample values and a network that records
       connections *)

(** The layout the specification describes, word by word: sender,
    nonce, hash of the empty init code, hash of the call data, the two
    gas limits each left-padded to 16 bytes (verification first),
    preVerificationGas, the two fees each left-padded to 16 bytes
    (priority fee first), hash of the empty paymaster-and-data payload. *)
Definition claimedLayout (op : UserOperation) : bytes :=
  common.LeftPadBytes (Sender op) 32
  ++ abi.U256Bytes (Nonce op)
  ++ crypto.Keccak256 []
  ++ crypto.Keccak256 (CallData op)
  ++ (common.LeftPadBytes (big.Bytes (VerificationGasLimit op)) 16
      ++ common.LeftPadBytes (big.Bytes (CallGasLimit op)) 16)
  ++ abi.U256Bytes (PreVerificationGas op)
  ++ (common.LeftPadBytes (big.Bytes (MaxPriorityFeePerGas op)) 16
      ++ common.LeftPadBytes (big.Bytes (MaxFeePerGas op)) 16)
  ++ crypto.Keccak256 [].

(** The operation of the end-to-end scenario of the specification. *)
Definition scenarioOp : UserOperation :=
  {| Sender := repeat Byte.xaa 20; Nonce := 0;
     CallData := [Byte.xde; Byte.xad; Byte.xbe; Byte.xef];
     CallGasLimit := 30000; VerificationGasLimit := 50000;
     PreVerificationGas := 21000; MaxFeePerGas := 1000;
     MaxPriorityFeePerGas := 100; Paymaster := repeat Byte.x00 20;
     PaymasterData := []; Signature := [] |}.

(** [op.VerificationGasLimit = v; op.CallGasLimit = c]. *)
Definition setGasLimits (v c : Z) (op : UserOperation) : UserOperation :=
  {| Sender := Sender op; Nonce := Nonce op; CallData := CallData op;
     CallGasLimit := c;
     VerificationGasLimit := v;
     PreVerificationGas := PreVerificationGas op;
     MaxFeePerGas := MaxFeePerGas op;
     MaxPriorityFeePerGas := MaxPriorityFeePerGas op;
     Paymaster := Paymaster op; PaymasterData := PaymasterData op;
     Signature := Signature op |}.

(** [op.Paymaster = p; op.PaymasterData = d]. *)
Definition setPaymaster (p d : bytes) (op : UserOperation) : UserOperation :=
  {| Sender := Sender op; Nonce := Nonce op; CallData := CallData op;
     CallGasLimit := CallGasLimit op;
     VerificationGasLimit := VerificationGasLimit op;
     PreVerificationGas := PreVerificationGas op;
     MaxFeePerGas := MaxFeePerGas op;
     MaxPriorityFeePerGas := MaxPriorityFeePerGas op;
     Paymaster := p; PaymasterData := d;
     Signature := Signature op |}.

(** A gateway for examples: chain 137, a transport that always fails. *)
Definition deadClient : RPCClient unit :=
  {| CallContext := fun _ _ => ret (Err (ErrMsg "connection refused")) |}.

Definition scenarioEntrypoint : EntrypointClient07 unit :=
  {| e_Client := deadClient;
     e_Address := entryPointAddress07;
     e_Abi := entrypointAbi07;
     e_ChainID := 137 |}.

(** Two distinct inputs with the same Keccak-256 digest. *)
Definition collision (x y : bytes) : Prop :=
  x <> y /\ crypto.Keccak256 x = crypto.Keccak256 y.

(** The bytes [GetUserOperationHash] hashes last, for a packed
    operation: the (bytes32, address, uint256) encoding of its digest,
    of the gateway's address and of its chain identifier. *)
Definition hashInput {World} (e : EntrypointClient07 World) (packedOp : bytes) : bytes :=
  crypto.Keccak256 packedOp
  ++ common.LeftPadBytes (e_Address e) 32 ++ abi.U256Bytes (e_ChainID e).

(** Seventeen and eighteen bytes 0x01, as integers. *)
Definition ones17 : Z := big.SetBytes (repeat Byte.x01 17).
Definition ones18 : Z := big.SetBytes (repeat Byte.x01 18).

(** The message [GetNonce] sends for an account. *)
Definition getNonceMsg (account : bytes) : CallMsg :=
  {| To := entryPointAddress07;
     Data := [Byte.x35; Byte.x56; Byte.x7e; Byte.x1a]
             ++ common.LeftPadBytes account 32 ++ big.be_split 32 0 |}.

(** What [GetNonce] makes of the answer of the transport. *)
Definition nonceOfAnswer (r : result bytes) : result Z :=
  match r with
  | Err err => Err (Wrap err "failed to call getNonce eth_call")
  | Ok hex => Ok (big.SetBytes hex)
  end.

(** A transport that answers every call with the given bytes. *)
Definition answering (answer : bytes) : RPCClient unit :=
  {| CallContext := fun _ _ => ret (Ok answer) |}.

(** A client for examples: the node answers nonce 0, the bundler quotes
    the standard tier (1000, 100), accepts every operation under the
    identifier 0x01 and never has a receipt; the paymaster scribbles on
    the gas limits of the operation it is handed and answers with
    (21000, 50000, 30000). *)
Definition scenarioResponse : SponsorUserOperationResponse :=
  {| sr_Paymaster := repeat Byte.x00 20; sr_PaymasterData := [];
     sr_PreVerificationGas := 21000; sr_VerificationGasLimit := 50000;
     sr_CallGasLimit := 30000 |}.

Definition scenarioClient : Client unit unit unit :=
  {| c_Signer := {| s_GetAddress := repeat Byte.xaa 20;
                    s_SignUserOperationHash := fun h => ret (Ok h) |};
     c_EntryPoint :=
       asEntrypoint {| e_Client := answering [];
                       e_Address := entryPointAddress07;
                       e_Abi := entrypointAbi07;
                       e_ChainID := 137 |};
     c_PaymasterClient :=
       {| pm_SponsorUserOperation :=
            fun op => ret (setGasLimits 7 7 op, Ok scenarioResponse) |};
     c_BundlerClient :=
       {| b_GetUserOperationGasPrice :=
            ret (Ok {| gpr_Standard := {| gp_MaxFeePerGas := 1000;
                                          gp_MaxPriorityFeePerGas := 100 |} |});
          b_SendUserOperation := fun _ => ret (Ok [Byte.x01]);
          b_GetUserOperationReceipt :=
            fun _ _ _ => ret (None, Some (ErrMsg "receipt not found")) |};
     c_ChainID := 137;
     c_RpcClients := {| rc_Network := tt; rc_Paymaster := tt; rc_Bundler := tt |};
     c_ReceiptPollingDelay := 10;
     c_ReceiptPollingRetries := 24 |}.

(** What happens to a connection. *)
Inductive ConnEvent : Type :=
| Opened (conn : nat)
| Closed (conn : nat).

(** A network for [NewClient]: the endpoints that accept a connection,
    the handle of the next connection, and the events so far. *)
Record Net : Type := {
  accepts : string -> bool;
  nextConn : nat;
  events : list ConnEvent
}.

Definition record (ev : ConnEvent) (w : Net) : Net :=
  {| accepts := accepts w; nextConn := nextConn w; events := events w ++ [ev] |}.

(** [rpc.Dial]: a fresh open connection, or an error and nothing opened. *)
Definition netDial (url : string) : IO Net (result nat) :=
  fun w =>
    if accepts w url
    then (Ok (nextConn w),
          record (Opened (nextConn w))
            {| accepts := accepts w; nextConn := S (nextConn w); events := events w |})
    else (Err (ErrMsg "dial failed"), w).

(** [rpc.Client.Close]. *)
Definition netClose (conn : nat) : IO Net unit := fun w => (tt, record (Closed conn) w).

Definition netClient (conn : nat) : RPCClient Net :=
  {| CallContext := fun _ _ => ret (Err (ErrMsg "no answer")) |}.

(** The outcome of the three constructors that follow the dials: the
    error each one returns, if any. They open and close nothing. *)
Record Outcomes : Type := {
  paymasterClientErr : option error;
  bundlerClientErr : option error;
  signerErr : option error
}.

Definition outcome {A} (err : option error) (a : A) : IO Net (result A) :=
  ret (match err with Some e => Err e | None => Ok a end).

Definition netNewClient (o : Outcomes) (config : ClientConfig unit)
  : IO Net (result (Client Net unit nat)) :=
  NewClient netDial netClose netClient
    (fun _ _ _ => outcome (paymasterClientErr o)
                    {| pm_SponsorUserOperation :=
                         fun op => ret (op, Err (ErrMsg "no paymaster")) |})
    (fun _ _ _ => outcome (bundlerClientErr o)
                    {| b_GetUserOperationGasPrice := ret (Err (ErrMsg "no bundler"));
                       b_SendUserOperation := fun _ => ret (Err (ErrMsg "no bundler"));
                       b_GetUserOperationReceipt :=
                         fun _ _ _ => ret (None, Some (ErrMsg "no bundler")) |})
    (fun _ addr _ => outcome (signerErr o)
                    {| s_GetAddress := addr;
                       s_SignUserOperationHash := fun h => ret (Ok h) |})
    config.

(** Number of times a connection was closed, and whether it was opened. *)
Definition closes (conn : nat) (evs : list ConnEvent) : nat :=
  List.length (filter (fun ev => match ev with
                                 | Closed c => Nat.eqb c conn
                                 | Opened _ => false
                                 end) evs).

Definition opened (conn : nat) (evs : list ConnEvent) : bool :=
  existsb (fun ev => match ev with
                     | Opened c => Nat.eqb c conn
                     | Closed _ => false
                     end) evs.

(** Every connection that was opened has been closed exactly once. *)
Definition released (evs : list ConnEvent) : Prop :=
  forall conn, opened conn evs = true -> closes conn evs = 1%nat.

Definition scenarioConfig : ClientConfig unit :=
  {| cfg_AccountAddress := repeat Byte.xaa 20;
     cfg_AccountPK := Some tt;
     cfg_EntryPointVersion := "0.7";
     cfg_RpcURL := "https://rpc.example";
     cfg_PaymasterURL := Some "https://paymaster.example"%string;
     cfg_BundlerURL := Some "https://bundler.example"%string;
     cfg_ChainID := Some 137;
     cfg_ReceiptPollingDelaySeconds := 0;
     cfg_ReceiptPollingRetries := 0 |}.

(** A network where only the listed endpoints accept connections. *)
Definition network (up : list string) : Net :=
  {| accepts := fun url => existsb (String.eqb url) up;
     nextConn := 0;
     events := [] |}.

Definition allUp : Net :=
  network ["https://rpc.example"; "https://paymaster.example"; "https://bundler.example"]%string.

Definition signerFails : Outcomes :=
  {| paymasterClientErr := None; bundlerClientErr := None;
     signerErr := Some (ErrMsg "invalid key") |}.
Definition bundlerClientFails : Outcomes :=
  {| paymasterClientErr := None; bundlerClientErr := Some (ErrMsg "bad bundler");
     signerErr := None |}.
Definition paymasterClientFails : Outcomes :=
  {| paymasterClientErr := Some (ErrMsg "bad paymaster"); bundlerClientErr := None;
     signerErr := None |}.
Definition noFailure : Outcomes :=
  {| paymasterClientErr := None; bundlerClientErr := None; signerErr := None |}.

(** The events of a run of [NewClient] and whether it returned an error. *)
Definition eventsOf (o : Outcomes) (w : Net) : list ConnEvent :=
  events (snd (netNewClient o scenarioConfig w)).

Definition failed (o : Outcomes) (w : Net) : bool :=
  match fst (netNewClient o scenarioConfig w) with
  | Err _ => true
  | Ok _ => false
  end.

(** The operations the protocol admits: a 20-byte sender, and gas
    limits and fees whose magnitude fits in 128 bits. *)
Definition fitsProtocol (op : UserOperation) : Prop :=
  List.length (Sender op) = 20%nat
  /\ Z.abs (VerificationGasLimit op) < 2 ^ 128
  /\ Z.abs (CallGasLimit op) < 2 ^ 128
  /\ Z.abs (MaxPriorityFeePerGas op) < 2 ^ 128
  /\ Z.abs (MaxFeePerGas op) < 2 ^ 128.

(** Two operations agree on what [PackUserOperation] reads: the sender,
    the nonce and preVerificationGas as 256-bit words, the digest of the
    call data, and the magnitudes of the gas limits and fees. *)
Definition sameCoveredFields (op1 op2 : UserOperation) : Prop :=
  Sender op1 = Sender op2
  /\ Nonce op1 mod 2 ^ 256 = Nonce op2 mod 2 ^ 256
  /\ crypto.Keccak256 (CallData op1) = crypto.Keccak256 (CallData op2)
  /\ Z.abs (VerificationGasLimit op1) = Z.abs (VerificationGasLimit op2)
  /\ Z.abs (CallGasLimit op1) = Z.abs (CallGasLimit op2)
  /\ PreVerificationGas op1 mod 2 ^ 256 = PreVerificationGas op2 mod 2 ^ 256
  /\ Z.abs (MaxPriorityFeePerGas op1) = Z.abs (MaxPriorityFeePerGas op2)
  /\ Z.abs (MaxFeePerGas op1) = Z.abs (MaxFeePerGas op2).

(** The scenario's operation with a negated gas limit, a nonce beyond
    256 bits and a signature. *)
Definition scenarioOpAlias : UserOperation :=
  {| Sender := repeat Byte.xaa 20; Nonce := 2 ^ 256;
     CallData := [Byte.xde; Byte.xad; Byte.xbe; Byte.xef];
     CallGasLimit := -30000; VerificationGasLimit := 50000;
     PreVerificationGas := 21000; MaxFeePerGas := 1000;
     MaxPriorityFeePerGas := 100; Paymaster := [];
     PaymasterData := [Byte.x01]; Signature := [Byte.xff] |}.

(** The scenario's gateway with a chain identifier beyond 256 bits. *)
Definition scenarioEntrypointWrapped : EntrypointClient07 unit :=
  {| e_Client := deadClient;
     e_Address := entryPointAddress07;
     e_Abi := entrypointAbi07;
     e_ChainID := 137 + 2 ^ 256 |}.

(** A gateway whose ABI has no method at all. *)
Definition bareEntrypoint : EntrypointClient07 unit :=
  {| e_Client := answering [];
     e_Address := entryPointAddress07;
     e_Abi := [];
     e_ChainID := 137 |}.

(** A configuration that passes the check of [NewClient], with the
    values behind its pointers. *)
Definition validConfig {PrivateKey} (config : ClientConfig PrivateKey)
  (accountPK : PrivateKey) (paymasterURL bundlerURL : string) (chainID : Z) : Prop :=
  cfg_AccountPK config = Some accountPK
  /\ cfg_PaymasterURL config = Some paymasterURL
  /\ cfg_BundlerURL config = Some bundlerURL
  /\ cfg_ChainID config = Some chainID
  /\ cfg_EntryPointVersion config = EntryPointVersion07.

(** The operation [GetUserOperationAndHashToSign] has built when it
    asks for sponsorship: sender, nonce, call data and the fees of the
    standard tier; nothing else is set. *)
Definition requestedOp (sender : bytes) (nonce : Z) (callData : bytes)
  (gasPrice : GasPriceResponse) : UserOperation :=
  {| Sender := sender; Nonce := nonce; CallData := callData;
     CallGasLimit := 0; VerificationGasLimit := 0; PreVerificationGas := 0;
     MaxFeePerGas := gp_MaxFeePerGas (gpr_Standard gasPrice);
     MaxPriorityFeePerGas := gp_MaxPriorityFeePerGas (gpr_Standard gasPrice);
     Paymaster := []; PaymasterData := []; Signature := [] |}.

(** The scenario's configuration without a chain identifier. *)
Definition configWithoutChain : ClientConfig unit :=
  {| cfg_AccountAddress := repeat Byte.xaa 20;
     cfg_AccountPK := Some tt;
     cfg_EntryPointVersion := "0.7";
     cfg_RpcURL := "https://rpc.example";
     cfg_PaymasterURL := Some "https://paymaster.example"%string;
     cfg_BundlerURL := Some "https://bundler.example"%string;
     cfg_ChainID := None;
     cfg_ReceiptPollingDelaySeconds := 0;
     cfg_ReceiptPollingRetries := 0 |}.

(* ================================================================= *)
(** * Properties *)

(** ** Byte strings and integers *)

Lemma length_be_split n w : List.length (big.be_split n w) = n.
Proof. unfold big.be_split. now rewrite length_rev, length_le_split. Qed.

Lemma be_combine_split n w :
  big.be_combine (big.be_split n w) = w mod 2 ^ (Z.of_nat n * 8).
Proof.
  unfold big.be_combine, big.be_split.
  now rewrite rev_involutive, le_combine_split.
Qed.

Lemma be_combine_zeros k l :
  big.be_combine (repeat Byte.x00 k ++ l) = big.be_combine l.
Proof.
  unfold big.be_combine.
  rewrite rev_app_distr, rev_repeat. apply le_combine_app_0.
Qed.

Lemma byteLen_bound a : 0 <= a -> a < 2 ^ (Z.of_nat (big.byteLen a) * 8).
Proof.
  intros Ha. unfold big.byteLen.
  destruct (Z.eqb_spec a 0) as [-> | Hnz]; [reflexivity |].
  assert (Hpos : 0 < a) by lia.
  pose proof (Z.log2_nonneg a) as Hl.
  destruct (Z.log2_spec a Hpos) as [_ Hup].
  rewrite Z2Nat.id by (pose proof (Z.div_pos (Z.log2 a) 8); lia).
  eapply Z.lt_le_trans; [exact Hup |].
  apply Z.pow_le_mono_r; [lia |].
  pose proof (Z.mod_pos_bound (Z.log2 a) 8).
  pose proof (Z.div_mod (Z.log2 a) 8). lia.
Qed.

Lemma byteLen_le a n :
  0 <= a -> (big.byteLen a <= n)%nat <-> a < 2 ^ (Z.of_nat n * 8).
Proof.
  intros Ha. split.
  - intros Hle. eapply Z.lt_le_trans; [apply byteLen_bound; exact Ha |].
    apply Z.pow_le_mono_r; lia.
  - intros Hlt. unfold big.byteLen.
    destruct (Z.eqb_spec a 0) as [-> | Hnz]; [lia |].
    assert (Hpos : 0 < a) by lia.
    destruct (Z.log2_spec a Hpos) as [Hlo _].
    assert (Hlog : Z.log2 a < Z.of_nat n * 8).
    { apply (Z.pow_lt_mono_r_iff 2); lia. }
    pose proof (Z.log2_nonneg a).
    assert (Z.log2 a / 8 < Z.of_nat n) by (apply Z.div_lt_upper_bound; lia).
    pose proof (Z.div_pos (Z.log2 a) 8). lia.
Qed.

Lemma length_Bytes x : List.length (big.Bytes x) = big.byteLen (Z.abs x).
Proof. apply length_be_split. Qed.

Lemma be_combine_Bytes x : big.be_combine (big.Bytes x) = Z.abs x.
Proof.
  unfold big.Bytes. rewrite be_combine_split.
  apply Z.mod_small. split; [lia | apply byteLen_bound; lia].
Qed.

(** A value fits in 16 bytes exactly when its magnitude is below 2^128. *)
Lemma Bytes_fits16 x : (List.length (big.Bytes x) <= 16)%nat <-> Z.abs x < 2 ^ 128.
Proof. rewrite length_Bytes. apply (byteLen_le (Z.abs x) 16). lia. Qed.

Lemma length_LeftPadBytes l n :
  (List.length l <= n)%nat -> List.length (common.LeftPadBytes l n) = n.
Proof.
  intros Hle. unfold common.LeftPadBytes.
  destruct (Nat.leb_spec n (List.length l)); [lia |].
  rewrite length_app, repeat_length. lia.
Qed.

Lemma LeftPadBytes_long l n :
  (n <= List.length l)%nat -> common.LeftPadBytes l n = l.
Proof.
  intros Hle. unfold common.LeftPadBytes.
  destruct (Nat.leb_spec n (List.length l)); [reflexivity | lia].
Qed.

Lemma length_LeftPadBytes_ge l n : (n <= List.length (common.LeftPadBytes l n))%nat.
Proof.
  unfold common.LeftPadBytes.
  destruct (Nat.leb_spec n (List.length l)); [assumption |].
  rewrite length_app, repeat_length. lia.
Qed.

Lemma be_combine_LeftPadBytes l n :
  big.be_combine (common.LeftPadBytes l n) = big.be_combine l.
Proof.
  unfold common.LeftPadBytes.
  destruct (n <=? List.length l)%nat; [reflexivity | apply be_combine_zeros].
Qed.

Lemma RightPadBytes_exact l n :
  List.length l = n -> common.RightPadBytes l n = l.
Proof.
  intros <-. unfold common.RightPadBytes. now rewrite Nat.leb_refl.
Qed.

Lemma length_toArray32 buffer : List.length (toArray32 buffer) = 32%nat.
Proof.
  unfold toArray32. rewrite length_app, length_firstn, repeat_length. lia.
Qed.

Lemma toArray32_long buffer :
  (32 <= List.length buffer)%nat -> toArray32 buffer = firstn 32 buffer.
Proof.
  intros Hle. unfold toArray32.
  replace (32 - List.length buffer)%nat with 0%nat by lia.
  apply app_nil_r.
Qed.

Lemma toArray32_exact buffer :
  List.length buffer = 32%nat -> toArray32 buffer = buffer.
Proof.
  intros Hlen. rewrite toArray32_long by lia.
  rewrite <- Hlen. apply firstn_all.
Qed.

Lemma length_createPackedBuffer first second :
  (List.length first <= 16)%nat -> (List.length second <= 16)%nat ->
  List.length (createPackedBuffer first second) = 32%nat.
Proof.
  intros H1 H2. unfold createPackedBuffer.
  rewrite length_app, !length_LeftPadBytes by assumption. reflexivity.
Qed.

(** Known digests: the empty string and "abc". *)
Example Keccak256_empty :
  hex.EncodeToString (crypto.Keccak256 [])
  = "c5d2460186f7233c927e7db2dcc703c0e500b653ca82273b7bfad8045d85a470"%string.
Proof. vm_compute. reflexivity. Qed.

Example Keccak256_abc :
  hex.EncodeToString (crypto.Keccak256 [Byte.x61; Byte.x62; Byte.x63])
  = "4e03657aea45a94fc7d47ba826c8d667c0d1e6e33a64a036ec44f58fa12d6c45"%string.
Proof. vm_compute. reflexivity. Qed.

(** The digest always has 32 bytes. *)
Lemma length_Keccak256 data : List.length (crypto.Keccak256 data) = 32%nat.
Proof.
  unfold crypto.Keccak256. cbv zeta.
  generalize (fold_left crypto.absorb
                (crypto.blocks
                   (List.length (data ++ crypto.pad (List.length data)) / crypto.rate)
                   (data ++ crypto.pad (List.length data)))
                (repeat 0 25)).
  intros st. cbn [seq flat_map].
  rewrite !length_app, !length_le_split. reflexivity.
Qed.


(** ** The packed layout *)

Arguments crypto.Keccak256 : simpl never.
Arguments crypto.Keccak256Hash : simpl never.
Arguments abi.U256Bytes : simpl never.
Arguments common.LeftPadBytes : simpl never.
Arguments common.RightPadBytes : simpl never.
Arguments toArray32 : simpl never.
Arguments big.Bytes : simpl never.

(** Reads the fields of an operation after an assignment. *)
Ltac read_fields :=
  cbn [setGasLimits setPaymaster Sender Nonce CallData VerificationGasLimit
       CallGasLimit PreVerificationGas MaxFeePerGas MaxPriorityFeePerGas
       Paymaster PaymasterData Signature].

Lemma length_Keccak256Hash data : List.length (crypto.Keccak256Hash data) = 32%nat.
Proof. apply length_Keccak256. Qed.

Lemma pack_address l : abi.pack address (abi.Array l) = Ok (common.LeftPadBytes l 32).
Proof. reflexivity. Qed.

Lemma pack_uint256 x : abi.pack uint256 (abi.BigInt x) = Ok (abi.U256Bytes x).
Proof. reflexivity. Qed.

Lemma pack_bytes32 l :
  List.length l = 32%nat -> abi.pack bytes32 (abi.Array l) = Ok l.
Proof.
  intros Hlen. unfold abi.pack, bytes32. cbn [abi.typeCheck].
  rewrite Hlen. cbn. now rewrite RightPadBytes_exact.
Qed.

Lemma FromHex_0x : common.FromHex "0x" = [].
Proof. reflexivity. Qed.

(** What [PackUserOperation] returns on any operation: the eight words
    of the tuple, the two gas slots being the 32-byte arrays that
    [toArray32] makes of the packed buffers. *)
Lemma PackUserOperation_words op :
  PackUserOperation op =
  Ok (common.LeftPadBytes (Sender op) 32
      ++ abi.U256Bytes (Nonce op)
      ++ crypto.Keccak256 []
      ++ crypto.Keccak256 (CallData op)
      ++ toArray32 (createPackedBuffer (big.Bytes (VerificationGasLimit op))
                                       (big.Bytes (CallGasLimit op)))
      ++ abi.U256Bytes (PreVerificationGas op)
      ++ toArray32 (createPackedBuffer (big.Bytes (MaxPriorityFeePerGas op))
                                       (big.Bytes (MaxFeePerGas op)))
      ++ crypto.Keccak256 []).
Proof.
  unfold PackUserOperation. cbv zeta. rewrite FromHex_0x.
  unfold abi.Pack, packArgs.
  cbn [List.length Nat.eqb abi.packAll abi.Type_].
  rewrite pack_address, !pack_uint256.
  rewrite !pack_bytes32
    by first [apply length_Keccak256Hash | apply length_toArray32].
  cbn [bindR]. rewrite app_nil_r. reflexivity.
Qed.

(** [PackUserOperation] never returns an error. *)
Lemma PackUserOperation_total op : exists packed, PackUserOperation op = Ok packed.
Proof. eexists. apply PackUserOperation_words. Qed.

(** A gas slot when both halves fit in 16 bytes. *)
Lemma slot_fits x y :
  Z.abs x < 2 ^ 128 -> Z.abs y < 2 ^ 128 ->
  toArray32 (createPackedBuffer (big.Bytes x) (big.Bytes y)) =
  common.LeftPadBytes (big.Bytes x) 16 ++ common.LeftPadBytes (big.Bytes y) 16.
Proof.
  intros Hx Hy. apply toArray32_exact.
  apply length_createPackedBuffer; now apply Bytes_fits16.
Qed.

(** Within 128 bits the padded half is the 16-byte big-endian number. *)
Lemma padded16_uint128 x :
  0 <= x < 2 ^ 128 -> common.LeftPadBytes (big.Bytes x) 16 = big.be_split 16 x.
Proof.
  intros Hx.
  assert (Hfit : (List.length (big.Bytes x) <= 16)%nat) by (apply Bytes_fits16; lia).
  apply rev_inj. apply le_combine_inj.
  - rewrite !length_rev, length_LeftPadBytes, length_be_split by assumption.
    reflexivity.
  - change (big.be_combine (common.LeftPadBytes (big.Bytes x) 16)
            = big.be_combine (big.be_split 16 x)).
    rewrite be_combine_LeftPadBytes, be_combine_Bytes, be_combine_split.
    rewrite Z.abs_eq by lia. symmetry. apply Z.mod_small.
    change (Z.of_nat 16 * 8) with 128. lia.
Qed.

(** The gas slot of the end-to-end scenario: 50000 above 30000. *)
Example scenario_gas_slot :
  hex.EncodeToString (toArray32 (createPackedBuffer (big.Bytes 50000) (big.Bytes 30000)))
  = "0000000000000000000000000000c35000000000000000000000000000007530"%string.
Proof. vm_compute. reflexivity. Qed.

Example entryPointAddress07_bytes :
  hex.EncodeToString entryPointAddress07 = "0000000071727de22e5e9d8baf0edac6f37da032"%string
  /\ List.length entryPointAddress07 = 20%nat.
Proof. split; vm_compute; reflexivity. Qed.

(** C1 (as amended). For every operation whose two gas limits and two
    fees each fit in 16 bytes (magnitude below 2^128),
    [PackUserOperation] returns the positional encoding of: sender
    (address), nonce (uint256), the hash of the empty init code, the
    hash of the call data, the slot made of verificationGasLimit and
    callGasLimit each left-padded to 16 bytes (verification first),
    preVerificationGas (uint256), the slot made of maxPriorityFeePerGas
    and maxFeePerGas each left-padded to 16 bytes (priority fee first),
    and the hash of the empty paymaster-and-data payload; both slots
    have 32 bytes. *)
Theorem PackUserOperation_layout op :
  Z.abs (VerificationGasLimit op) < 2 ^ 128 ->
  Z.abs (CallGasLimit op) < 2 ^ 128 ->
  Z.abs (MaxPriorityFeePerGas op) < 2 ^ 128 ->
  Z.abs (MaxFeePerGas op) < 2 ^ 128 ->
  PackUserOperation op = Ok (claimedLayout op)
  /\ List.length (common.LeftPadBytes (big.Bytes (VerificationGasLimit op)) 16
                  ++ common.LeftPadBytes (big.Bytes (CallGasLimit op)) 16) = 32%nat
  /\ List.length (common.LeftPadBytes (big.Bytes (MaxPriorityFeePerGas op)) 16
                  ++ common.LeftPadBytes (big.Bytes (MaxFeePerGas op)) 16) = 32%nat.
Proof.
  intros Hv Hc Hp Hm. split.
  - rewrite PackUserOperation_words. unfold claimedLayout.
    now rewrite !slot_fits by assumption.
  - split; apply length_createPackedBuffer; now apply Bytes_fits16.
Qed.

Lemma PackUserOperation_layout_witness :
  (Z.abs (VerificationGasLimit scenarioOp) < 2 ^ 128
   /\ Z.abs (CallGasLimit scenarioOp) < 2 ^ 128
   /\ Z.abs (MaxPriorityFeePerGas scenarioOp) < 2 ^ 128
   /\ Z.abs (MaxFeePerGas scenarioOp) < 2 ^ 128)
  /\ PackUserOperation scenarioOp = Ok (claimedLayout scenarioOp)
  /\ List.length (common.LeftPadBytes (big.Bytes (VerificationGasLimit scenarioOp)) 16
                  ++ common.LeftPadBytes (big.Bytes (CallGasLimit scenarioOp)) 16) = 32%nat
  /\ List.length (common.LeftPadBytes (big.Bytes (MaxPriorityFeePerGas scenarioOp)) 16
                  ++ common.LeftPadBytes (big.Bytes (MaxFeePerGas scenarioOp)) 16) = 32%nat.
Proof.
  split; [vm_compute; auto |].
  apply (PackUserOperation_layout scenarioOp); vm_compute; reflexivity.
Defined.

(** C1 (as stated) fails when a gas limit needs more than 16 bytes: with
    verificationGasLimit = 2^128 the described layout has 257 bytes,
    while [PackUserOperation] returns 256. *)
Lemma PackUserOperation_layout_oversized :
  PackUserOperation (setGasLimits (2 ^ 128) 30000 scenarioOp)
  <> Ok (claimedLayout (setGasLimits (2 ^ 128) 30000 scenarioOp)).
Proof.
  intros H.
  assert (Hlen : forall a b : bytes, Ok a = Ok b -> List.length a = List.length b)
    by (intros a b Hab; now inversion Hab).
  rewrite PackUserOperation_words in H. apply Hlen in H.
  vm_compute in H. discriminate H.
Qed.

(** ** The operation hash *)

(** The outer tuple encoding of [GetUserOperationHash] never fails. *)
Lemma hash_tuple_words (packedOp addr : bytes) (chainID : Z) :
  abi.Pack hashArgs [ abi.Array (crypto.Keccak256Hash packedOp);
                      abi.Array addr; abi.BigInt chainID ] =
  Ok (crypto.Keccak256 packedOp ++ common.LeftPadBytes addr 32 ++ abi.U256Bytes chainID).
Proof.
  unfold abi.Pack, hashArgs.
  cbn [List.length Nat.eqb abi.packAll abi.Type_].
  rewrite pack_address, pack_uint256, pack_bytes32 by apply length_Keccak256Hash.
  cbn [bindR]. rewrite app_nil_r. reflexivity.
Qed.

Lemma GetUserOperationHash_of_packed {World} (e : EntrypointClient07 World) op packedOp :
  PackUserOperation op = Ok packedOp ->
  GetUserOperationHash e op =
  Ok (crypto.Keccak256
        (crypto.Keccak256 packedOp
         ++ common.LeftPadBytes (e_Address e) 32 ++ abi.U256Bytes (e_ChainID e))).
Proof.
  intros Hp. unfold GetUserOperationHash. rewrite Hp, hash_tuple_words. reflexivity.
Qed.

(** C2. [GetUserOperationHash] is the Keccak-256 digest of the
    (bytes32, address, uint256) encoding of the digest of the packed
    operation, the gateway's address and its chain identifier; packing
    and the outer encoding both succeed, and the only errors the
    function can return are the ones these two encodings return,
    wrapped with the name of the step. *)
Theorem GetUserOperationHash_spec {World} (e : EntrypointClient07 World) op :
  (exists packedOp,
      PackUserOperation op = Ok packedOp
      /\ abi.Pack hashArgs [ abi.Array (crypto.Keccak256Hash packedOp);
                             abi.Array (e_Address e); abi.BigInt (e_ChainID e) ]
         = Ok (crypto.Keccak256 packedOp
               ++ common.LeftPadBytes (e_Address e) 32
               ++ abi.U256Bytes (e_ChainID e))
      /\ GetUserOperationHash e op =
         Ok (crypto.Keccak256
               (crypto.Keccak256 packedOp
                ++ common.LeftPadBytes (e_Address e) 32
                ++ abi.U256Bytes (e_ChainID e))))
  /\ GetUserOperationHash e op =
     match PackUserOperation op with
     | Err err => Err (Wrap err "failed to pack user operation")
     | Ok packedOp =>
         match abi.Pack hashArgs [ abi.Array (crypto.Keccak256Hash packedOp);
                                   abi.Array (e_Address e);
                                   abi.BigInt (e_ChainID e) ] with
         | Err err => Err (Wrap err "failed to pack user operation for hashing")
         | Ok packed => Ok (crypto.Keccak256 packed)
         end
     end.
Proof.
  split; [| reflexivity].
  destruct (PackUserOperation_total op) as [packedOp Hp].
  exists packedOp. split; [exact Hp |]. split.
  - apply hash_tuple_words.
  - now apply GetUserOperationHash_of_packed.
Qed.

(** C3. Whatever [Paymaster] and [PaymasterData] hold, the last word of
    the packed operation is the digest of the empty byte string, and
    neither the packed bytes nor the operation hash depend on the two
    fields. *)
Theorem paymaster_fields_ignored {World} (e : EntrypointClient07 World) op p d :
  (exists words,
      PackUserOperation (setPaymaster p d op) = Ok (words ++ crypto.Keccak256 [])
      /\ List.length (crypto.Keccak256 []) = 32%nat)
  /\ PackUserOperation (setPaymaster p d op) = PackUserOperation op
  /\ GetUserOperationHash e (setPaymaster p d op) = GetUserOperationHash e op.
Proof.
  assert (Hsame : PackUserOperation (setPaymaster p d op) = PackUserOperation op)
    by reflexivity.
  split; [| split].
  - rewrite PackUserOperation_words.
    eexists. split; [| apply length_Keccak256].
    rewrite !app_assoc. reflexivity.
  - exact Hsame.
  - unfold GetUserOperationHash. now rewrite Hsame.
Qed.

(** ** Order of the 16-byte halves *)

Lemma app_inj_length {A} (a b c d : list A) :
  List.length a = List.length b -> a ++ c = b ++ d -> a = b /\ c = d.
Proof.
  revert b. induction a as [| x a IH]; intros [| y b] Hlen Heq;
    try discriminate Hlen.
  - now split.
  - cbn in Heq. injection Heq as -> Heq.
    destruct (IH b) as [-> ->]; [now injection Hlen | exact Heq | now split].
Qed.

Lemma padded16_inj x y :
  common.LeftPadBytes (big.Bytes x) 16 = common.LeftPadBytes (big.Bytes y) 16 ->
  Z.abs x = Z.abs y.
Proof.
  intros H. apply (f_equal big.be_combine) in H.
  now rewrite !be_combine_LeftPadBytes, !be_combine_Bytes in H.
Qed.

Lemma Ok_inj {A} (a b : A) : Ok a = Ok b -> a = b.
Proof. now intros [= ->]. Qed.

(** C9 (as amended). For distinct A and B in [0, 2^128), packing with
    (verificationGasLimit, callGasLimit) = (A, B) and with (B, A)
    succeeds with different bytes p1 and p2, and the two operation
    hashes can be equal only if Keccak-256 collides on p1 and p2
    themselves or on the two byte strings that are hashed last (the
    encodings of the digests of p1 and p2 with the gateway's address and
    chain identifier). *)
Theorem gas_pair_order_sensitive {World} (e : EntrypointClient07 World) op A B :
  0 <= A < 2 ^ 128 -> 0 <= B < 2 ^ 128 -> A <> B ->
  PackUserOperation (setGasLimits A B op) <> PackUserOperation (setGasLimits B A op)
  /\ exists p1 p2,
      PackUserOperation (setGasLimits A B op) = Ok p1
      /\ PackUserOperation (setGasLimits B A op) = Ok p2
      /\ p1 <> p2
      /\ GetUserOperationHash e (setGasLimits A B op)
         = Ok (crypto.Keccak256 (hashInput e p1))
      /\ GetUserOperationHash e (setGasLimits B A op)
         = Ok (crypto.Keccak256 (hashInput e p2))
      /\ (GetUserOperationHash e (setGasLimits A B op)
          = GetUserOperationHash e (setGasLimits B A op) ->
          collision p1 p2 \/ collision (hashInput e p1) (hashInput e p2)).
Proof.
  intros HA HB Hne.
  assert (Hdiff : PackUserOperation (setGasLimits A B op)
                  <> PackUserOperation (setGasLimits B A op)).
  { rewrite !PackUserOperation_words. read_fields.
    rewrite (slot_fits A B), (slot_fits B A) by lia.
    intros H. apply Ok_inj in H.
    do 4 apply app_inv_head in H. apply app_inv_tail in H.
    apply app_inj_length in H.
    - destruct H as [H _]. apply padded16_inj in H. lia.
    - rewrite !length_LeftPadBytes; [reflexivity | |]; apply Bytes_fits16; lia. }
  split; [exact Hdiff |].
  destruct (PackUserOperation_total (setGasLimits A B op)) as [p1 Hp1].
  destruct (PackUserOperation_total (setGasLimits B A op)) as [p2 Hp2].
  assert (Hp : p1 <> p2) by (intros ->; apply Hdiff; now rewrite Hp1, Hp2).
  pose proof (GetUserOperationHash_of_packed e _ p1 Hp1) as Hh1.
  pose proof (GetUserOperationHash_of_packed e _ p2 Hp2) as Hh2.
  exists p1, p2.
  split; [exact Hp1 |]. split; [exact Hp2 |]. split; [exact Hp |].
  split; [exact Hh1 |]. split; [exact Hh2 |].
  rewrite Hh1, Hh2. intros H. apply Ok_inj in H. fold (hashInput e p1) in H.
  fold (hashInput e p2) in H.
  destruct (list_eq_dec Strings.Byte.byte_eq_dec (hashInput e p1) (hashInput e p2))
    as [Heq | Hneq].
  - left. unfold hashInput in Heq. apply app_inv_tail in Heq. now split.
  - right. now split.
Qed.

Lemma gas_pair_order_sensitive_witness :
  (0 <= 50000 < 2 ^ 128 /\ 0 <= 30000 < 2 ^ 128 /\ 50000 <> 30000)
  /\ PackUserOperation (setGasLimits 50000 30000 scenarioOp)
     <> PackUserOperation (setGasLimits 30000 50000 scenarioOp)
  /\ exists p1 p2,
      PackUserOperation (setGasLimits 50000 30000 scenarioOp) = Ok p1
      /\ PackUserOperation (setGasLimits 30000 50000 scenarioOp) = Ok p2
      /\ p1 <> p2
      /\ GetUserOperationHash scenarioEntrypoint (setGasLimits 50000 30000 scenarioOp)
         = Ok (crypto.Keccak256 (hashInput scenarioEntrypoint p1))
      /\ GetUserOperationHash scenarioEntrypoint (setGasLimits 30000 50000 scenarioOp)
         = Ok (crypto.Keccak256 (hashInput scenarioEntrypoint p2))
      /\ (GetUserOperationHash scenarioEntrypoint (setGasLimits 50000 30000 scenarioOp)
          = GetUserOperationHash scenarioEntrypoint (setGasLimits 30000 50000 scenarioOp) ->
          collision p1 p2
          \/ collision (hashInput scenarioEntrypoint p1) (hashInput scenarioEntrypoint p2)).
Proof.
  split; [lia |].
  apply (gas_pair_order_sensitive scenarioEntrypoint scenarioOp 50000 30000); lia.
Defined.

(** C9 (as stated) fails for values that need more than 16 bytes:
    swapping the 17-byte and the 18-byte value made of bytes 0x01 leaves
    the packed bytes, and so the operation hash, unchanged. *)
Lemma gas_pair_swap_oversized :
  ones17 <> ones18
  /\ PackUserOperation (setGasLimits ones17 ones18 scenarioOp)
     = PackUserOperation (setGasLimits ones18 ones17 scenarioOp)
  /\ GetUserOperationHash scenarioEntrypoint (setGasLimits ones17 ones18 scenarioOp)
     = GetUserOperationHash scenarioEntrypoint (setGasLimits ones18 ones17 scenarioOp).
Proof.
  assert (Hpack : PackUserOperation (setGasLimits ones17 ones18 scenarioOp)
                  = PackUserOperation (setGasLimits ones18 ones17 scenarioOp))
    by (vm_compute; reflexivity).
  split; [vm_compute; discriminate |]. split; [exact Hpack |].
  unfold GetUserOperationHash. now rewrite Hpack.
Qed.

(** ** Halves that do not fit in 16 bytes *)

Lemma Bytes_oversized x :
  2 ^ 128 <= Z.abs x -> (16 < List.length (big.Bytes x))%nat.
Proof.
  intros Hx. destruct (Nat.le_gt_cases (List.length (big.Bytes x)) 16) as [Hle | Hgt].
  - apply Bytes_fits16 in Hle. lia.
  - exact Hgt.
Qed.

(** A pair with an oversized half: the buffer has more than 32 bytes
    and [toArray32] keeps its first 32, so the last byte of the second
    half never reaches the slot. *)
Lemma packed_pair_oversized x y :
  2 ^ 128 <= Z.abs x \/ 2 ^ 128 <= Z.abs y ->
  (32 < List.length (createPackedBuffer (big.Bytes x) (big.Bytes y)))%nat
  /\ toArray32 (createPackedBuffer (big.Bytes x) (big.Bytes y))
     = firstn 32 (createPackedBuffer (big.Bytes x) (big.Bytes y))
  /\ toArray32 (createPackedBuffer (big.Bytes x) (big.Bytes y))
     = firstn 32 (common.LeftPadBytes (big.Bytes x) 16
                  ++ removelast (common.LeftPadBytes (big.Bytes y) 16)).
Proof.
  intros Hbig.
  assert (Hlen : (32 < List.length (createPackedBuffer (big.Bytes x) (big.Bytes y)))%nat).
  { unfold createPackedBuffer. rewrite length_app.
    pose proof (length_LeftPadBytes_ge (big.Bytes x) 16) as Hx.
    pose proof (length_LeftPadBytes_ge (big.Bytes y) 16) as Hy.
    destruct Hbig as [Hbig | Hbig]; apply Bytes_oversized in Hbig.
    - rewrite (LeftPadBytes_long (big.Bytes x) 16) by lia. lia.
    - rewrite (LeftPadBytes_long (big.Bytes y) 16) by lia. lia. }
  split; [exact Hlen |].
  rewrite toArray32_long by lia. split; [reflexivity |].
  rewrite <- (firstn_removelast _ Hlen).
  unfold createPackedBuffer. rewrite removelast_app; [reflexivity |].
  intros Hnil. pose proof (length_LeftPadBytes_ge (big.Bytes y) 16) as Hy.
  rewrite Hnil in Hy. cbn in Hy. lia.
Qed.

(** C10. When a value of a packed pair needs more than 16 bytes
    (magnitude 2^128 or more), [PackUserOperation] still succeeds: the
    oversized half is written unpadded, the buffer is longer than 32
    bytes, the slot is its first 32 bytes, and the tail of the second
    value is lost (its last byte never reaches the slot), for the gas
    limits as for the fees; operations that differ only in
    callGasLimit can then have the same packed bytes. *)
Theorem oversized_half_truncated x y :
  2 ^ 128 <= Z.abs x \/ 2 ^ 128 <= Z.abs y ->
  (2 ^ 128 <= Z.abs x -> common.LeftPadBytes (big.Bytes x) 16 = big.Bytes x)
  /\ (2 ^ 128 <= Z.abs y -> common.LeftPadBytes (big.Bytes y) 16 = big.Bytes y)
  /\ (32 < List.length (createPackedBuffer (big.Bytes x) (big.Bytes y)))%nat
  /\ toArray32 (createPackedBuffer (big.Bytes x) (big.Bytes y))
     = firstn 32 (createPackedBuffer (big.Bytes x) (big.Bytes y))
  /\ toArray32 (createPackedBuffer (big.Bytes x) (big.Bytes y))
     = firstn 32 (common.LeftPadBytes (big.Bytes x) 16
                  ++ removelast (common.LeftPadBytes (big.Bytes y) 16))
  /\ (forall op, VerificationGasLimit op = x -> CallGasLimit op = y ->
        exists before after,
          PackUserOperation op =
          Ok (before
              ++ firstn 32 (createPackedBuffer (big.Bytes x) (big.Bytes y))
              ++ after))
  /\ (forall op, MaxPriorityFeePerGas op = x -> MaxFeePerGas op = y ->
        exists before after,
          PackUserOperation op =
          Ok (before
              ++ firstn 32 (createPackedBuffer (big.Bytes x) (big.Bytes y))
              ++ after))
  /\ (forall op,
        PackUserOperation (setGasLimits (2 ^ 128) 0 op)
        = PackUserOperation (setGasLimits (2 ^ 128) 1 op)).
Proof.
  intros Hbig.
  destruct (packed_pair_oversized x y Hbig) as (Hlen & Hcut & Hlast).
  split; [| split; [| split; [| split; [| split; [| split; [| split]]]]]].
  - intros Hx. apply LeftPadBytes_long. apply Bytes_oversized in Hx. lia.
  - intros Hy. apply LeftPadBytes_long. apply Bytes_oversized in Hy. lia.
  - exact Hlen.
  - exact Hcut.
  - exact Hlast.
  - intros op <- <-. rewrite PackUserOperation_words, Hcut.
    exists (common.LeftPadBytes (Sender op) 32 ++ abi.U256Bytes (Nonce op)
            ++ crypto.Keccak256 [] ++ crypto.Keccak256 (CallData op)).
    eexists. rewrite <- !app_assoc. reflexivity.
  - intros op <- <-. rewrite PackUserOperation_words, Hcut.
    exists (common.LeftPadBytes (Sender op) 32 ++ abi.U256Bytes (Nonce op)
            ++ crypto.Keccak256 [] ++ crypto.Keccak256 (CallData op)
            ++ toArray32 (createPackedBuffer (big.Bytes (VerificationGasLimit op))
                                             (big.Bytes (CallGasLimit op)))
            ++ abi.U256Bytes (PreVerificationGas op)).
    eexists. rewrite <- !app_assoc. reflexivity.
  - intros op. rewrite !PackUserOperation_words. read_fields.
    replace (toArray32 (createPackedBuffer (big.Bytes (2 ^ 128)) (big.Bytes 1)))
      with (toArray32 (createPackedBuffer (big.Bytes (2 ^ 128)) (big.Bytes 0)))
      by (vm_compute; reflexivity).
    reflexivity.
Qed.

Lemma oversized_half_truncated_witness :
  (2 ^ 128 <= Z.abs (2 ^ 128) \/ 2 ^ 128 <= Z.abs 30000)
  /\ (32 < List.length (createPackedBuffer (big.Bytes (2 ^ 128)) (big.Bytes 30000)))%nat
  /\ toArray32 (createPackedBuffer (big.Bytes (2 ^ 128)) (big.Bytes 30000))
     = firstn 32 (createPackedBuffer (big.Bytes (2 ^ 128)) (big.Bytes 30000)).
Proof.
  assert (H : 2 ^ 128 <= Z.abs (2 ^ 128) \/ 2 ^ 128 <= Z.abs 30000)
    by (left; vm_compute; discriminate).
  split; [exact H |].
  pose proof (oversized_half_truncated (2 ^ 128) 30000 H) as (_ & _ & Hlen & Hcut & _).
  split; [exact Hlen | exact Hcut].
Defined.

Example oversized_slot_bytes :
  hex.EncodeToString
    (toArray32 (createPackedBuffer (big.Bytes (2 ^ 128)) (big.Bytes 30000)))
  = "0100000000000000000000000000000000000000000000000000000000000075"%string.
Proof. vm_compute. reflexivity. Qed.

(** ** The nonce lookup *)

Lemma substring_all s : String.substring 0 (String.length s) s = s.
Proof. induction s as [| c s IH]; cbn; [reflexivity | now rewrite IH]. Qed.

Lemma hex_digits_of_byte b :
  hex.fromHexChar (hex.digit (Z.shiftr (byte.unsigned b) 4))
    = Some (Z.shiftr (byte.unsigned b) 4)
  /\ hex.fromHexChar (hex.digit (Z.land (byte.unsigned b) 15))
    = Some (Z.land (byte.unsigned b) 15)
  /\ byte.of_Z (Z.lor (Z.shiftl (Z.shiftr (byte.unsigned b) 4) 4)
                      (Z.land (byte.unsigned b) 15)) = b.
Proof. destruct b; vm_compute; repeat split. Qed.

(** Decoding the digits of a byte string gives the string back. *)
Lemma DecodeString_EncodeToString src :
  hex.DecodeString (hex.EncodeToString src) = (src, None).
Proof.
  induction src as [| b rest IH]; [reflexivity |].
  destruct (hex_digits_of_byte b) as (Hhi & Hlo & Hb).
  cbn [hex.EncodeToString hex.DecodeString].
  rewrite Hhi, Hlo, IH, Hb. reflexivity.
Qed.

(** [hexutil.Decode] accepts whatever [hexutil.Encode] prints. *)
Lemma Decode_Encode b : hexutil.Decode (hexutil.Encode b) = Ok b.
Proof.
  unfold hexutil.Decode, hexutil.Encode.
  cbn [String.length Nat.eqb common.has0xPrefix negb Nat.sub String.substring].
  rewrite Nat.sub_0_r, substring_all, DecodeString_EncodeToString. reflexivity.
Qed.

(** The selector of [getNonce(address,uint192)]. *)
Lemma getNonce_selector :
  abi.selector "getNonce(address,uint192)" = [Byte.x35; Byte.x56; Byte.x7e; Byte.x1a].
Proof. vm_compute. reflexivity. Qed.

(** The call data of [getNonce(account, key)]. *)
Lemma getNonce_callData account key :
  abi.PackMethod entrypointAbi07 "getNonce" [abi.Array account; abi.BigInt key] =
  Ok ([Byte.x35; Byte.x56; Byte.x7e; Byte.x1a]
      ++ common.LeftPadBytes account 32 ++ abi.U256Bytes key).
Proof.
  unfold abi.PackMethod, entrypointAbi07.
  cbn [abi.lookup abi.MName String.eqb Ascii.eqb Bool.eqb abi.Inputs abi.ID].
  rewrite getNonce_selector.
  unfold abi.Pack. cbn [List.length Nat.eqb abi.packAll abi.Type_].
  change (abi.pack abi.AddressTy (abi.Array account))
    with (Ok (common.LeftPadBytes account 32)).
  change (abi.pack (abi.UintTy 192) (abi.BigInt key)) with (Ok (abi.U256Bytes key)).
  cbn [bindR]. rewrite app_nil_r. reflexivity.
Qed.

(** On a gateway built by [NewEntrypoint07], [GetNonce] is one
    [eth_call] with the message of the account and the zero key,
    followed by the reading of the answer. *)
Lemma GetNonce_run {World} (client : RPCClient World) (chainID : Z) account w :
  exists e,
    NewEntrypoint07 client chainID = Ok e
    /\ GetNonce e account w =
       (nonceOfAnswer (fst (CallContext client "eth_call" (getNonceMsg account) w)),
        snd (CallContext client "eth_call" (getNonceMsg account) w)).
Proof.
  eexists. split; [reflexivity |].
  unfold GetNonce. cbv zeta. cbn [e_Abi e_Address e_Client].
  rewrite getNonce_callData. unfold computeKey, bind, getNonceMsg.
  change (abi.U256Bytes 0) with (big.be_split 32 0).
  destruct (CallContext client "eth_call" _ w) as [[hex | err] w']; cbn [fst snd].
  - rewrite Decode_Encode. reflexivity.
  - reflexivity.
Qed.

Lemma computeKey_constant a1 a2 : computeKey a1 = computeKey a2.
Proof. reflexivity. Qed.

(** C4. For every account, [GetNonce] sends a single [eth_call] to the
    entry point whose data is the [getNonce] selector, the account and
    the key zero (32 zero bytes); the key is [computeKey account] = 0,
    the same for all accounts. *)
Theorem GetNonce_key_zero {World} (client : RPCClient World) (chainID : Z) account w :
  computeKey account = 0
  /\ (forall other, computeKey other = computeKey account)
  /\ Data (getNonceMsg account)
     = abi.selector "getNonce(address,uint192)"
       ++ common.LeftPadBytes account 32 ++ abi.U256Bytes (computeKey account)
  /\ abi.U256Bytes (computeKey account) = repeat Byte.x00 32
  /\ exists e,
      NewEntrypoint07 client chainID = Ok e
      /\ abi.PackMethod (e_Abi e) "getNonce"
           [abi.Array account; abi.BigInt (computeKey account)]
         = Ok (Data (getNonceMsg account))
      /\ GetNonce e account w =
         (nonceOfAnswer (fst (CallContext client "eth_call" (getNonceMsg account) w)),
          snd (CallContext client "eth_call" (getNonceMsg account) w)).
Proof.
  split; [reflexivity |]. split; [reflexivity |].
  split; [now rewrite getNonce_selector |].
  split; [vm_compute; reflexivity |].
  destruct (GetNonce_run client chainID account w) as (e & He & Hrun).
  exists e. split; [exact He |]. split; [| exact Hrun].
  injection He as <-. cbn [e_Abi]. now rewrite getNonce_callData.
Qed.

(** C7 (as amended). On a gateway built by [NewEntrypoint07], when the
    [eth_call] fails [GetNonce] returns that error wrapped as the
    failure of the call, and when the call returns bytes [GetNonce]
    returns their big-endian value: decoding what was just encoded
    cannot fail. *)
Theorem GetNonce_outcomes {World} (client : RPCClient World) (chainID : Z) account w :
  exists e,
    NewEntrypoint07 client chainID = Ok e
    /\ (forall err w',
          CallContext client "eth_call" (getNonceMsg account) w = (Err err, w') ->
          GetNonce e account w = (Err (Wrap err "failed to call getNonce eth_call"), w'))
    /\ (forall hex w',
          CallContext client "eth_call" (getNonceMsg account) w = (Ok hex, w') ->
          hexutil.Decode (hexutil.Encode hex) = Ok hex
          /\ GetNonce e account w = (Ok (big.SetBytes hex), w')).
Proof.
  destruct (GetNonce_run client chainID account w) as (e & He & Hrun).
  exists e. split; [exact He |]. split.
  - intros err w' Hcall. now rewrite Hrun, Hcall.
  - intros hex w' Hcall. split; [apply Decode_Encode |]. now rewrite Hrun, Hcall.
Qed.

(** C7 (as stated) fails: no gateway, transport, account or state of the
    world makes [GetNonce] return the error of the decoding step. *)
Lemma GetNonce_decode_error_unreachable :
  ~ exists (World : Type) (e : EntrypointClient07 World) account w err w',
      GetNonce e account w = (Err (Wrap err "failed to decode getNonce hex"), w').
Proof.
  intros (World & e & account & w & err & w' & H).
  unfold GetNonce in H. cbv zeta in H.
  destruct (abi.PackMethod _ _ _) as [callData | perr]; [| discriminate H].
  unfold bind in H.
  destruct (CallContext _ _ _ w) as [[hex | cerr] w1]; [| discriminate H].
  rewrite Decode_Encode in H. discriminate H.
Qed.

Example GetNonce_reads_big_endian :
  exists e,
    NewEntrypoint07 (answering [Byte.x01; Byte.x00]) 137 = Ok e
    /\ GetNonce e (repeat Byte.xaa 20) tt = (Ok 256, tt).
Proof. eexists. split; [reflexivity | vm_compute; reflexivity]. Qed.

Example GetNonce_transport_failure :
  exists e,
    NewEntrypoint07 deadClient 137 = Ok e
    /\ GetNonce e (repeat Byte.xaa 20) tt
       = (Err (Wrap (ErrMsg "connection refused") "failed to call getNonce eth_call"), tt).
Proof. eexists. split; [reflexivity | vm_compute; reflexivity]. Qed.

(** ** Orchestration *)

Section Orchestration.

Context {World Receipt Conn : Type}.
Implicit Type c : Client World Receipt Conn.

(** C5. When [GetUserOperationAndHashToSign] succeeds, the paymaster was
    called once and answered with a sponsorship response; whatever the
    operation held when the paymaster returned it, the operation that is
    hashed and returned carries the response's callGasLimit,
    verificationGasLimit and preVerificationGas. *)
Theorem sponsorship_overrides_gas c sender callData w op opHash w' :
  GetUserOperationAndHashToSign c sender callData w = (Ok (op, opHash), w') ->
  exists opSent opBack sponsorResponse w1,
    pm_SponsorUserOperation (c_PaymasterClient c) opSent w1
      = ((opBack, Ok sponsorResponse), w')
    /\ op = setSponsorship sponsorResponse opBack
    /\ CallGasLimit op = sr_CallGasLimit sponsorResponse
    /\ VerificationGasLimit op = sr_VerificationGasLimit sponsorResponse
    /\ PreVerificationGas op = sr_PreVerificationGas sponsorResponse
    /\ Entrypoint.GetUserOperationHash (c_EntryPoint c) op = Ok opHash.
Proof.
  unfold GetUserOperationAndHashToSign, bind, ret. cbv zeta.
  destruct (Entrypoint.GetNonce (c_EntryPoint c) sender w) as [[nonce | e0] w0];
    [| discriminate].
  destruct (b_GetUserOperationGasPrice (c_BundlerClient c) w0) as [[gasPrice | e1] w1];
    [| discriminate].
  destruct (pm_SponsorUserOperation (c_PaymasterClient c) _ w1)
    as [[opBack [sponsorResponse | e2]] w2] eqn:Hsponsor; [| discriminate].
  destruct (Entrypoint.GetUserOperationHash (c_EntryPoint c) _) as [h | e3] eqn:Hhash;
    [| discriminate].
  intros [= <- <- <-].
  do 4 eexists. split; [exact Hsponsor |].
  repeat split. exact Hhash.
Qed.

(** C8. Once the submission has returned an identifier,
    [SendSignedUserOperation] returns a result with that identifier and
    no error, with or without waiting; when it waits and the poll ends
    with an error and no receipt, the result has no receipt. *)
Theorem submission_outlives_polling c signedOp waitForReceipt w response w1 :
  b_SendUserOperation (c_BundlerClient c) signedOp w = (Ok response, w1) ->
  (exists receipt w2,
      SendSignedUserOperation c signedOp waitForReceipt w
      = (Ok {| r_UserOperationHash := response; r_Receipt := receipt |}, w2))
  /\ (forall err w2,
        b_GetUserOperationReceipt (c_BundlerClient c) response
          (c_ReceiptPollingDelay c) (c_ReceiptPollingRetries c) w1
        = ((None, Some err), w2) ->
        SendSignedUserOperation c signedOp true w
        = (Ok {| r_UserOperationHash := response; r_Receipt := None |}, w2))
  /\ SendSignedUserOperation c signedOp false w
     = (Ok {| r_UserOperationHash := response; r_Receipt := None |}, w1).
Proof.
  intros Hsend. unfold SendSignedUserOperation, bind, ret. rewrite Hsend.
  split; [| split].
  - destruct waitForReceipt.
    + destruct (b_GetUserOperationReceipt _ _ _ _ w1) as [polled w2].
      now exists (fst polled), w2.
    + now exists None, w1.
  - intros err w2 Hpoll. now rewrite Hpoll.
  - reflexivity.
Qed.

End Orchestration.

Lemma sponsorship_overrides_gas_witness :
  exists opHash,
    GetUserOperationAndHashToSign scenarioClient (repeat Byte.xaa 20)
      [Byte.xde; Byte.xad; Byte.xbe; Byte.xef] tt
    = (Ok (scenarioOp, opHash), tt)
    /\ exists opSent opBack sponsorResponse w1,
        pm_SponsorUserOperation (c_PaymasterClient scenarioClient) opSent w1
          = ((opBack, Ok sponsorResponse), tt)
        /\ scenarioOp = setSponsorship sponsorResponse opBack
        /\ CallGasLimit scenarioOp = sr_CallGasLimit sponsorResponse
        /\ VerificationGasLimit scenarioOp = sr_VerificationGasLimit sponsorResponse
        /\ PreVerificationGas scenarioOp = sr_PreVerificationGas sponsorResponse
        /\ Entrypoint.GetUserOperationHash (c_EntryPoint scenarioClient) scenarioOp
           = Ok opHash.
Proof.
  eexists. split; [vm_compute; reflexivity |].
  apply (sponsorship_overrides_gas scenarioClient (repeat Byte.xaa 20)
           [Byte.xde; Byte.xad; Byte.xbe; Byte.xef] tt).
  vm_compute. reflexivity.
Defined.

Lemma submission_outlives_polling_witness :
  b_SendUserOperation (c_BundlerClient scenarioClient) scenarioOp tt = (Ok [Byte.x01], tt)
  /\ SendSignedUserOperation scenarioClient scenarioOp true tt
     = (Ok {| r_UserOperationHash := [Byte.x01]; r_Receipt := None |}, tt).
Proof.
  assert (H : b_SendUserOperation (c_BundlerClient scenarioClient) scenarioOp tt
              = (Ok [Byte.x01], tt)) by reflexivity.
  split; [exact H |].
  destruct (submission_outlives_polling scenarioClient scenarioOp true tt _ _ H)
    as (_ & Hpoll & _).
  apply (Hpoll (ErrMsg "receipt not found")). reflexivity.
Defined.

(** ** Connections opened and closed by [NewClient] *)

(** A failed dial releases what was opened before it, once each. *)
Lemma NewClient_dial_failures_release :
  eventsOf noFailure (network []) = []
  /\ eventsOf noFailure (network ["https://rpc.example"%string])
     = [Opened 0; Closed 0]
  /\ eventsOf noFailure (network ["https://rpc.example"; "https://paymaster.example"]%string)
     = [Opened 0; Opened 1; Closed 1; Closed 0]
  /\ released (eventsOf noFailure (network ["https://rpc.example"%string]))
  /\ released (eventsOf noFailure
                 (network ["https://rpc.example"; "https://paymaster.example"]%string)).
Proof.
  repeat split; try (vm_compute; reflexivity).
  - intros [| [| conn]]; vm_compute; congruence.
  - intros [| [| [| conn]]]; vm_compute; congruence.
Qed.

(** C6 (the code at the failing input). With the three connections
    dialed, a failure of the paymaster client, of the bundler client or
    of the signer makes [NewClient] return the error after closing the
    network connection twice and the paymaster connection once; the
    bundler connection (handle 2) is never closed, so the opened
    connections are not all released. *)
Theorem NewClient_leaks_bundler_connection :
  failed signerFails allUp = true
  /\ eventsOf signerFails allUp
     = [Opened 0; Opened 1; Opened 2; Closed 0; Closed 1; Closed 0]
  /\ eventsOf bundlerClientFails allUp = eventsOf signerFails allUp
  /\ eventsOf paymasterClientFails allUp = eventsOf signerFails allUp
  /\ closes 0 (eventsOf signerFails allUp) = 2%nat
  /\ opened 2 (eventsOf signerFails allUp) = true
  /\ closes 2 (eventsOf signerFails allUp) = 0%nat
  /\ ~ released (eventsOf signerFails allUp).
Proof.
  repeat split; try (vm_compute; reflexivity).
  intros Hrel. specialize (Hrel 2%nat eq_refl). vm_compute in Hrel. discriminate Hrel.
Qed.

(* ================================================================= *)
(** * Further properties of the code *)

(** ** Size and injectivity of the packed operation *)

Lemma length_U256Bytes n : List.length (abi.U256Bytes n) = 32%nat.
Proof. apply length_be_split. Qed.

Lemma be_combine_U256Bytes n : big.be_combine (abi.U256Bytes n) = n mod 2 ^ 256.
Proof.
  unfold abi.U256Bytes. rewrite be_combine_split, Z.land_ones by lia.
  change (Z.of_nat 32 * 8) with 256. apply Z.mod_mod. lia.
Qed.

Lemma U256Bytes_eq_iff a b :
  abi.U256Bytes a = abi.U256Bytes b <-> a mod 2 ^ 256 = b mod 2 ^ 256.
Proof.
  split.
  - intros H. apply (f_equal big.be_combine) in H.
    now rewrite !be_combine_U256Bytes in H.
  - intros H. unfold abi.U256Bytes. now rewrite !Z.land_ones, H by lia.
Qed.

Lemma Bytes_abs x y : Z.abs x = Z.abs y -> big.Bytes x = big.Bytes y.
Proof. intros H. unfold big.Bytes. now rewrite H. Qed.

Lemma LeftPadBytes_inj a b n :
  List.length a = List.length b ->
  common.LeftPadBytes a n = common.LeftPadBytes b n -> a = b.
Proof.
  intros Hlen. unfold common.LeftPadBytes. rewrite Hlen.
  destruct (n <=? List.length b)%nat; [trivial |].
  apply app_inv_head.
Qed.

Lemma slot_inj x y x' y' :
  Z.abs x < 2 ^ 128 -> Z.abs y < 2 ^ 128 ->
  Z.abs x' < 2 ^ 128 -> Z.abs y' < 2 ^ 128 ->
  toArray32 (createPackedBuffer (big.Bytes x) (big.Bytes y))
  = toArray32 (createPackedBuffer (big.Bytes x') (big.Bytes y')) ->
  Z.abs x = Z.abs x' /\ Z.abs y = Z.abs y'.
Proof.
  intros Hx Hy Hx' Hy' H. rewrite !slot_fits in H by assumption.
  apply app_inj_length in H.
  - destruct H as [H1 H2]. split; now apply padded16_inj.
  - rewrite !length_LeftPadBytes; [reflexivity | |]; now apply Bytes_fits16.
Qed.

(** X1. The packed operation has 256 bytes whenever the sender has at
    most 32 (an address has 20), whatever the size of the gas values;
    the operation hash then has 32 bytes. *)
Theorem packed_size {World} (e : EntrypointClient07 World) op :
  (List.length (Sender op) <= 32)%nat ->
  exists packed opHash,
    PackUserOperation op = Ok packed /\ List.length packed = 256%nat
    /\ GetUserOperationHash e op = Ok opHash /\ List.length opHash = 32%nat.
Proof.
  intros Hs. eexists. eexists. split; [apply PackUserOperation_words |]. split.
  - rewrite !length_app, length_LeftPadBytes, !length_U256Bytes,
      !length_Keccak256, !length_toArray32 by assumption. reflexivity.
  - split; [apply (GetUserOperationHash_of_packed e), PackUserOperation_words |].
    apply length_Keccak256.
Qed.

Lemma packed_size_witness :
  (List.length (Sender scenarioOp) <= 32)%nat
  /\ exists packed opHash,
      PackUserOperation scenarioOp = Ok packed /\ List.length packed = 256%nat
      /\ GetUserOperationHash scenarioEntrypoint scenarioOp = Ok opHash
      /\ List.length opHash = 32%nat.
Proof.
  split; [vm_compute; lia |].
  apply (packed_size scenarioEntrypoint scenarioOp). vm_compute. lia.
Defined.

(** Equal packings and agreement on the covered fields. *)
Lemma packed_eq_iff op1 op2 :
  fitsProtocol op1 -> fitsProtocol op2 ->
  (PackUserOperation op1 = PackUserOperation op2 <-> sameCoveredFields op1 op2).
Proof.
  intros (Hs1 & Hv1 & Hc1 & Hp1 & Hm1) (Hs2 & Hv2 & Hc2 & Hp2 & Hm2).
  rewrite !PackUserOperation_words. unfold sameCoveredFields. split.
  - intros H. apply Ok_inj in H.
    apply app_inj_length in H;
      [| now rewrite !length_LeftPadBytes by lia].
    destruct H as [Hsender H].
    apply app_inj_length in H; [| now rewrite !length_U256Bytes].
    destruct H as [Hnonce H].
    apply app_inv_head in H.
    apply app_inj_length in H; [| now rewrite !length_Keccak256].
    destruct H as [Hdata H].
    apply app_inj_length in H; [| now rewrite !length_toArray32].
    destruct H as [Hgas H].
    apply app_inj_length in H; [| now rewrite !length_U256Bytes].
    destruct H as [Hpvg H].
    apply app_inv_tail in H.
    apply slot_inj in Hgas; try assumption.
    apply slot_inj in H; try assumption.
    apply LeftPadBytes_inj in Hsender; [| congruence].
    apply U256Bytes_eq_iff in Hnonce. apply U256Bytes_eq_iff in Hpvg.
    tauto.
  - intros (Hsender & Hnonce & Hdata & Hv & Hc & Hpvg & Hp & Hm).
    apply U256Bytes_eq_iff in Hnonce. apply U256Bytes_eq_iff in Hpvg.
    rewrite Hsender, Hnonce, Hdata, Hpvg.
    rewrite (Bytes_abs _ _ Hv), (Bytes_abs _ _ Hc), (Bytes_abs _ _ Hp),
      (Bytes_abs _ _ Hm).
    reflexivity.
Qed.

(** X2. On operations the protocol admits, two packings are equal
    exactly when the operations agree on the covered fields: sender,
    nonce and preVerificationGas modulo 2^256, digest of the call data,
    magnitudes of the two gas limits and of the two fees. Paymaster
    fields, signature, the sign of a gas value and multiples of 2^256 in
    the nonce are not seen. *)
Theorem PackUserOperation_covers op1 op2 :
  fitsProtocol op1 -> fitsProtocol op2 ->
  (PackUserOperation op1 = PackUserOperation op2 <-> sameCoveredFields op1 op2).
Proof. apply packed_eq_iff. Qed.

Lemma PackUserOperation_covers_witness :
  (fitsProtocol scenarioOp /\ fitsProtocol scenarioOpAlias)
  /\ sameCoveredFields scenarioOp scenarioOpAlias
  /\ PackUserOperation scenarioOp = PackUserOperation scenarioOpAlias.
Proof.
  assert (H1 : fitsProtocol scenarioOp) by (vm_compute; auto 10).
  assert (H2 : fitsProtocol scenarioOpAlias) by (vm_compute; auto 10).
  assert (H : sameCoveredFields scenarioOp scenarioOpAlias)
    by (vm_compute; auto 10).
  split; [now split |]. split; [exact H |].
  now apply (PackUserOperation_covers scenarioOp scenarioOpAlias H1 H2).
Defined.

(** ** What the operation hash binds *)

Lemma bytes_eq_dec (x y : bytes) : {x = y} + {x <> y}.
Proof. apply list_eq_dec, Strings.Byte.byte_eq_dec. Qed.

(** Equal digests come from equal inputs or from a collision of these
    two inputs. *)
Lemma Keccak256_eq_cases x y :
  crypto.Keccak256 x = crypto.Keccak256 y -> x = y \/ collision x y.
Proof.
  intros H. destruct (bytes_eq_dec x y) as [Heq | Hne]; [now left | right].
  now split.
Qed.

Lemma GetUserOperationHash_hashInput {World} (e : EntrypointClient07 World) op packedOp :
  PackUserOperation op = Ok packedOp ->
  GetUserOperationHash e op = Ok (crypto.Keccak256 (hashInput e packedOp)).
Proof. apply GetUserOperationHash_of_packed. Qed.

Lemma length_LeftPadBytes_same a b n :
  List.length a = List.length b ->
  List.length (common.LeftPadBytes a n) = List.length (common.LeftPadBytes b n).
Proof.
  intros Hlen. unfold common.LeftPadBytes. rewrite Hlen.
  destruct (n <=? List.length b)%nat; [exact Hlen |].
  now rewrite !length_app, !repeat_length, Hlen.
Qed.

(** Two hashes are equal only if the packed operations, the addresses
    and the chain identifiers (as 256-bit words) are, or Keccak-256
    collides on the two packed operations or on the two inputs of the
    last hash. *)
Lemma hash_eq_cases {World} (e1 e2 : EntrypointClient07 World) op1 op2 p1 p2 :
  PackUserOperation op1 = Ok p1 -> PackUserOperation op2 = Ok p2 ->
  List.length (e_Address e1) = List.length (e_Address e2) ->
  GetUserOperationHash e1 op1 = GetUserOperationHash e2 op2 ->
  (p1 = p2 /\ e_Address e1 = e_Address e2
   /\ e_ChainID e1 mod 2 ^ 256 = e_ChainID e2 mod 2 ^ 256)
  \/ collision p1 p2
  \/ collision (hashInput e1 p1) (hashInput e2 p2).
Proof.
  intros Hp1 Hp2 Hlen H.
  rewrite (GetUserOperationHash_hashInput e1 _ _ Hp1) in H.
  rewrite (GetUserOperationHash_hashInput e2 _ _ Hp2) in H.
  apply Ok_inj in H.
  destruct (Keccak256_eq_cases _ _ H) as [Hout | Hcol]; [| now right; right].
  unfold hashInput in Hout.
  apply app_inj_length in Hout; [| now rewrite !length_Keccak256].
  destruct Hout as [Hin Htail].
  destruct (Keccak256_eq_cases _ _ Hin) as [Hp | Hcol]; [| now right; left].
  apply app_inj_length in Htail; [| now apply length_LeftPadBytes_same].
  destruct Htail as [Haddr Hchain].
  left. split; [exact Hp |]. split.
  - now apply LeftPadBytes_inj in Haddr.
  - now apply U256Bytes_eq_iff.
Qed.

(** X3. On one gateway, take two operations the protocol admits; they
    pack to p1 and p2. If they agree on the covered fields they have the
    same hash. If they have the same hash, they agree on the covered
    fields and on the call data, or else Keccak-256 collides on one of
    three named pairs: the two call data, p1 and p2, or the two byte
    strings hashed last. *)
Theorem hash_covers {World} (e : EntrypointClient07 World) op1 op2 :
  fitsProtocol op1 -> fitsProtocol op2 ->
  exists p1 p2,
    PackUserOperation op1 = Ok p1
    /\ PackUserOperation op2 = Ok p2
    /\ GetUserOperationHash e op1 = Ok (crypto.Keccak256 (hashInput e p1))
    /\ GetUserOperationHash e op2 = Ok (crypto.Keccak256 (hashInput e p2))
    /\ (sameCoveredFields op1 op2 ->
        GetUserOperationHash e op1 = GetUserOperationHash e op2)
    /\ (GetUserOperationHash e op1 = GetUserOperationHash e op2 ->
        (sameCoveredFields op1 op2 /\ CallData op1 = CallData op2)
        \/ collision (CallData op1) (CallData op2)
        \/ collision p1 p2
        \/ collision (hashInput e p1) (hashInput e p2)).
Proof.
  intros H1 H2. pose proof (packed_eq_iff op1 op2 H1 H2) as Hiff.
  destruct (PackUserOperation_total op1) as [p1 Hp1].
  destruct (PackUserOperation_total op2) as [p2 Hp2].
  exists p1, p2. split; [exact Hp1 |]. split; [exact Hp2 |].
  split; [now apply GetUserOperationHash_hashInput |].
  split; [now apply GetUserOperationHash_hashInput |]. split.
  - intros Hsame. apply Hiff in Hsame. unfold GetUserOperationHash. now rewrite Hsame.
  - intros H.
    destruct (hash_eq_cases e e op1 op2 p1 p2 Hp1 Hp2 eq_refl H)
      as [(Hp & _) | [Hcol | Hcol]]; [| now right; right; left | now right; right; right].
    assert (Hsame : sameCoveredFields op1 op2)
      by (apply Hiff; now rewrite Hp1, Hp2, Hp).
    destruct Hsame as (Hs & Hn & Hd & Hrest).
    destruct (Keccak256_eq_cases _ _ Hd) as [Hcd | Hcol]; [| now right; left].
    left. split; [| exact Hcd]. repeat split; tauto.
Qed.

Lemma hash_covers_witness :
  (fitsProtocol scenarioOp /\ fitsProtocol scenarioOpAlias)
  /\ exists p1 p2,
      PackUserOperation scenarioOp = Ok p1
      /\ PackUserOperation scenarioOpAlias = Ok p2
      /\ GetUserOperationHash scenarioEntrypoint scenarioOp
         = GetUserOperationHash scenarioEntrypoint scenarioOpAlias
      /\ (GetUserOperationHash scenarioEntrypoint scenarioOp
          = GetUserOperationHash scenarioEntrypoint scenarioOpAlias ->
          (sameCoveredFields scenarioOp scenarioOpAlias
           /\ CallData scenarioOp = CallData scenarioOpAlias)
          \/ collision (CallData scenarioOp) (CallData scenarioOpAlias)
          \/ collision p1 p2
          \/ collision (hashInput scenarioEntrypoint p1) (hashInput scenarioEntrypoint p2)).
Proof.
  assert (H1 : fitsProtocol scenarioOp) by (vm_compute; auto 10).
  assert (H2 : fitsProtocol scenarioOpAlias) by (vm_compute; auto 10).
  split; [now split |].
  destruct (hash_covers scenarioEntrypoint scenarioOp scenarioOpAlias H1 H2)
    as (p1 & p2 & Hp1 & Hp2 & _ & _ & Hsame & Hback).
  exists p1, p2. split; [exact Hp1 |]. split; [exact Hp2 |].
  split; [| exact Hback].
  apply Hsame. vm_compute. auto 10.
Defined.

(** X4. The hash binds the gateway. An operation packs to p; for
    entry-point addresses of the same length, its hashes under two
    gateways are equal only if the addresses are equal and the chain
    identifiers are congruent modulo 2^256, or else Keccak-256 collides
    on the two byte strings hashed last under the two gateways. The
    hashes are equal whenever the addresses are equal and the chain
    identifiers congruent, so a chain identifier and the same plus 2^256
    are not told apart. *)
Theorem hash_binds_gateway {World} (e1 e2 : EntrypointClient07 World) op :
  List.length (e_Address e1) = List.length (e_Address e2) ->
  exists p,
    PackUserOperation op = Ok p
    /\ GetUserOperationHash e1 op = Ok (crypto.Keccak256 (hashInput e1 p))
    /\ GetUserOperationHash e2 op = Ok (crypto.Keccak256 (hashInput e2 p))
    /\ (e_Address e1 <> e_Address e2
        \/ e_ChainID e1 mod 2 ^ 256 <> e_ChainID e2 mod 2 ^ 256 ->
        hashInput e1 p <> hashInput e2 p)
    /\ (GetUserOperationHash e1 op = GetUserOperationHash e2 op ->
        (e_Address e1 = e_Address e2
         /\ e_ChainID e1 mod 2 ^ 256 = e_ChainID e2 mod 2 ^ 256)
        \/ collision (hashInput e1 p) (hashInput e2 p))
    /\ (e_Address e1 = e_Address e2 ->
        e_ChainID e1 mod 2 ^ 256 = e_ChainID e2 mod 2 ^ 256 ->
        GetUserOperationHash e1 op = GetUserOperationHash e2 op).
Proof.
  intros Hlen. destruct (PackUserOperation_total op) as [p Hp].
  pose proof (GetUserOperationHash_hashInput e1 _ _ Hp) as Hh1.
  pose proof (GetUserOperationHash_hashInput e2 _ _ Hp) as Hh2.
  assert (Hinj : hashInput e1 p = hashInput e2 p ->
                 e_Address e1 = e_Address e2
                 /\ e_ChainID e1 mod 2 ^ 256 = e_ChainID e2 mod 2 ^ 256).
  { unfold hashInput. intros H. apply app_inv_head in H.
    apply app_inj_length in H; [| now apply length_LeftPadBytes_same].
    destruct H as [Haddr Hchain]. split.
    - now apply LeftPadBytes_inj in Haddr.
    - now apply U256Bytes_eq_iff. }
  exists p. split; [exact Hp |]. split; [exact Hh1 |]. split; [exact Hh2 |].
  split; [| split].
  - intros Hdiff Heq. apply Hinj in Heq. tauto.
  - rewrite Hh1, Hh2. intros H. apply Ok_inj in H.
    destruct (Keccak256_eq_cases _ _ H) as [Heq | Hcol]; [left; now apply Hinj | now right].
  - intros Ha Hc. apply U256Bytes_eq_iff in Hc.
    rewrite Hh1, Hh2. unfold hashInput. now rewrite Ha, Hc.
Qed.

Lemma hash_binds_gateway_witness :
  List.length (e_Address scenarioEntrypoint)
  = List.length (e_Address scenarioEntrypointWrapped)
  /\ exists p,
      PackUserOperation scenarioOp = Ok p
      /\ GetUserOperationHash scenarioEntrypoint scenarioOp
         = GetUserOperationHash scenarioEntrypointWrapped scenarioOp
      /\ (GetUserOperationHash scenarioEntrypoint scenarioOp
          = GetUserOperationHash scenarioEntrypointWrapped scenarioOp ->
          (e_Address scenarioEntrypoint = e_Address scenarioEntrypointWrapped
           /\ e_ChainID scenarioEntrypoint mod 2 ^ 256
              = e_ChainID scenarioEntrypointWrapped mod 2 ^ 256)
          \/ collision (hashInput scenarioEntrypoint p)
                       (hashInput scenarioEntrypointWrapped p)).
Proof.
  assert (Hlen : List.length (e_Address scenarioEntrypoint)
                 = List.length (e_Address scenarioEntrypointWrapped)) by reflexivity.
  split; [exact Hlen |].
  destruct (hash_binds_gateway scenarioEntrypoint scenarioEntrypointWrapped scenarioOp Hlen)
    as (p & Hp & _ & _ & _ & Hback & Hsame).
  exists p. split; [exact Hp |]. split; [| exact Hback].
  apply Hsame; vm_compute; reflexivity.
Defined.

(** ** The two buffers *)

Lemma length_createPackedBuffer_ge first second :
  (32 <= List.length (createPackedBuffer first second))%nat.
Proof.
  unfold createPackedBuffer. rewrite length_app.
  pose proof (length_LeftPadBytes_ge first 16).
  pose proof (length_LeftPadBytes_ge second 16). lia.
Qed.

(** X5. A packed buffer always has 32 bytes or more, so [toArray32]
    never pads it: the slot is the first 32 bytes of the buffer, and its
    first 16 bytes never come from the second value. *)
Theorem slot_is_buffer_prefix first second :
  (32 <= List.length (createPackedBuffer first second))%nat
  /\ toArray32 (createPackedBuffer first second)
     = firstn 32 (createPackedBuffer first second)
  /\ firstn 16 (toArray32 (createPackedBuffer first second))
     = firstn 16 (common.LeftPadBytes first 16).
Proof.
  pose proof (length_createPackedBuffer_ge first second) as Hlen.
  split; [exact Hlen |]. split; [now apply toArray32_long |].
  rewrite toArray32_long by exact Hlen.
  rewrite firstn_firstn. change (Nat.min 16 32) with 16%nat.
  unfold createPackedBuffer.
  rewrite firstn_app.
  pose proof (length_LeftPadBytes_ge first 16) as Hge.
  replace (16 - List.length (common.LeftPadBytes first 16))%nat with 0%nat by lia.
  cbn [firstn]. apply app_nil_r.
Qed.

(** X6. A verificationGasLimit of 2^248 or more fills the slot alone:
    the packed operation no longer depends on callGasLimit at all. *)
Theorem huge_first_half_hides_second op v c c' :
  2 ^ 248 <= Z.abs v ->
  PackUserOperation (setGasLimits v c op) = PackUserOperation (setGasLimits v c' op).
Proof.
  intros Hv. rewrite !PackUserOperation_words. read_fields.
  assert (Hlen : (32 <= List.length (big.Bytes v))%nat).
  { destruct (Nat.le_gt_cases 32 (List.length (big.Bytes v))) as [Hle | Hgt];
      [exact Hle |].
    rewrite length_Bytes in Hgt.
    assert (Hfit : (big.byteLen (Z.abs v) <= 31)%nat) by lia.
    apply byteLen_le in Hfit; [| lia].
    change (Z.of_nat 31 * 8) with 248 in Hfit. lia. }
  assert (Hslot : forall y,
             toArray32 (createPackedBuffer (big.Bytes v) (big.Bytes y))
             = firstn 32 (big.Bytes v)).
  { intros y. rewrite toArray32_long by apply length_createPackedBuffer_ge.
    unfold createPackedBuffer. rewrite LeftPadBytes_long by lia.
    rewrite firstn_app.
    replace (32 - List.length (big.Bytes v))%nat with 0%nat by lia.
    cbn [firstn]. apply app_nil_r. }
  now rewrite !Hslot.
Qed.

Lemma huge_first_half_hides_second_witness :
  2 ^ 248 <= Z.abs (2 ^ 248)
  /\ PackUserOperation (setGasLimits (2 ^ 248) 1 scenarioOp)
     = PackUserOperation (setGasLimits (2 ^ 248) 2 scenarioOp).
Proof.
  split; [vm_compute; discriminate |].
  apply (huge_first_half_hides_second scenarioOp (2 ^ 248) 1 2).
  vm_compute. discriminate.
Defined.



(** ** More on the nonce lookup *)

(** X8. [GetNonce] inverts the ABI encoding of the answer: when the node
    answers with the uint256 word of [n], the nonce returned is
    [n mod 2^256], which is [n] for every value of the type. *)
Theorem GetNonce_reads_uint256 {World} (client : RPCClient World) (chainID : Z)
  account w n w' :
  CallContext client "eth_call" (getNonceMsg account) w = (Ok (abi.U256Bytes n), w') ->
  exists e,
    NewEntrypoint07 client chainID = Ok e
    /\ GetNonce e account w = (Ok (n mod 2 ^ 256), w')
    /\ (0 <= n < 2 ^ 256 -> GetNonce e account w = (Ok n, w')).
Proof.
  intros Hcall.
  destruct (GetNonce_run client chainID account w) as (e & He & Hrun).
  exists e. split; [exact He |].
  assert (Hres : GetNonce e account w = (Ok (n mod 2 ^ 256), w')).
  { rewrite Hrun, Hcall. cbn [fst snd nonceOfAnswer]. unfold big.SetBytes.
    now rewrite be_combine_U256Bytes. }
  split; [exact Hres |].
  intros Hn. now rewrite Hres, Z.mod_small.
Qed.

Lemma GetNonce_reads_uint256_witness :
  CallContext (answering (abi.U256Bytes 5)) "eth_call"
    (getNonceMsg (repeat Byte.xaa 20)) tt = (Ok (abi.U256Bytes 5), tt)
  /\ exists e,
      NewEntrypoint07 (answering (abi.U256Bytes 5)) 137 = Ok e
      /\ GetNonce e (repeat Byte.xaa 20) tt = (Ok (5 mod 2 ^ 256), tt)
      /\ (0 <= 5 < 2 ^ 256 -> GetNonce e (repeat Byte.xaa 20) tt = (Ok 5, tt)).
Proof.
  split; [reflexivity |].
  apply (GetNonce_reads_uint256 (answering (abi.U256Bytes 5)) 137
           (repeat Byte.xaa 20) tt 5 tt).
  reflexivity.
Defined.

(** X9. On a gateway whose ABI has no [getNonce] method, [GetNonce]
    returns the error of [ABI.Pack], "method 'getNonce' not found",
    wrapped as the failure to pack the call data, and makes no call: the
    world is left as it was. *)
Theorem GetNonce_without_method {World} (e : EntrypointClient07 World) account w :
  abi.lookup (e_Abi e) "getNonce" = None ->
  GetNonce e account w
  = (Err (Wrap (ErrMsg "method 'getNonce' not found")
            "failed to pack getNonce call data"), w).
Proof.
  intros Hnone. unfold GetNonce, abi.PackMethod. cbv zeta. now rewrite Hnone.
Qed.

Lemma GetNonce_without_method_witness :
  abi.lookup (e_Abi bareEntrypoint) "getNonce" = None
  /\ GetNonce bareEntrypoint (repeat Byte.xaa 20) tt
     = (Err (Wrap (ErrMsg "method 'getNonce' not found")
               "failed to pack getNonce call data"), tt).
Proof.
  split; [reflexivity |].
  apply (GetNonce_without_method bareEntrypoint (repeat Byte.xaa 20) tt).
  reflexivity.
Defined.

(** ** Construction of the client *)

Section ConstructionFacts.

Context {World Receipt Conn PrivateKey : Type}.
Variable Dial : string -> IO World (result Conn).
Variable Close : Conn -> IO World unit.
Variable rpcClient : Conn -> RPCClient World.
Variable NewPaymasterClient :
  Conn -> Entrypoint.t World -> Z -> IO World (result (PaymasterClient World)).
Variable NewBundlerClient :
  Conn -> Entrypoint.t World -> Z -> IO World (result (BundlerClient World Receipt)).
Variable NewSmartAccountPrivateKeySigner :
  Conn -> bytes -> PrivateKey -> IO World (result (AccountSigner World)).

(** X10. A configuration without a key, a paymaster URL, a bundler URL
    or a chain identifier, or with a version other than 0.7, is refused
    before anything is dialed: the error is returned and the world is
    untouched. *)
Theorem NewClient_refuses_incomplete_config (config : ClientConfig PrivateKey) w :
  cfg_AccountPK config = None \/ cfg_PaymasterURL config = None
  \/ cfg_BundlerURL config = None \/ cfg_ChainID config = None
  \/ cfg_EntryPointVersion config <> EntryPointVersion07 ->
  NewClient Dial Close rpcClient NewPaymasterClient NewBundlerClient
    NewSmartAccountPrivateKeySigner config w = (Err requiredErr, w).
Proof.
  intros H. unfold NewClient.
  destruct (cfg_AccountPK config), (cfg_PaymasterURL config),
    (cfg_BundlerURL config), (cfg_ChainID config); try reflexivity;
    try (exfalso; intuition discriminate).
  destruct (String.eqb_spec (cfg_EntryPointVersion config) EntryPointVersion07)
    as [Heq | Hne]; [| reflexivity].
  exfalso. intuition discriminate.
Qed.

(** X11. A client that [NewClient] returns was built from a complete
    configuration; it polls with the configured delay and retries when
    they are positive and with 10 seconds and 24 retries otherwise,
    keeps the chain identifier, and its entry point is the fixed 0.7
    address. *)
Theorem NewClient_settings (config : ClientConfig PrivateKey) w c w' :
  NewClient Dial Close rpcClient NewPaymasterClient NewBundlerClient
    NewSmartAccountPrivateKeySigner config w = (Ok c, w') ->
  c_ReceiptPollingDelay c
  = (if 0 <? cfg_ReceiptPollingDelaySeconds config
     then cfg_ReceiptPollingDelaySeconds config else 10)
  /\ c_ReceiptPollingRetries c
     = (if 0 <? cfg_ReceiptPollingRetries config
        then cfg_ReceiptPollingRetries config else 24)
  /\ 0 < c_ReceiptPollingDelay c /\ 0 < c_ReceiptPollingRetries c
  /\ cfg_ChainID config = Some (c_ChainID c)
  /\ cfg_EntryPointVersion config = EntryPointVersion07
  /\ Entrypoint.GetAddress (c_EntryPoint c) = entryPointAddress07.
Proof.
  unfold NewClient.
  destruct (cfg_AccountPK config) as [pk |]; [| discriminate].
  destruct (cfg_PaymasterURL config) as [purl |]; [| discriminate].
  destruct (cfg_BundlerURL config) as [burl |]; [| discriminate].
  destruct (cfg_ChainID config) as [chainID |]; [| discriminate].
  destruct (String.eqb_spec (cfg_EntryPointVersion config) EntryPointVersion07)
    as [Hver | _]; [| discriminate].
  unfold connect, bind, ret.
  destruct (Dial (cfg_RpcURL config) w) as [[networkRpc | e0] w0]; [| discriminate].
  destruct (Dial purl w0) as [[paymasterRpc | e1] w1];
    [| destruct (Close networkRpc w1); discriminate].
  destruct (Dial burl w1) as [[bundleRpc | e2] w2];
    [| destruct (Close paymasterRpc w2) as [? w3];
       destruct (Close networkRpc w3); discriminate].
  cbn [NewEntrypoint07 parseEntrypointAbi07].
  destruct (NewPaymasterClient _ _ _ w2) as [[pmc | e3] w3];
    [| destruct (Close networkRpc w3) as [? w4];
       destruct (Close paymasterRpc w4) as [? w5];
       destruct (Close networkRpc w5); discriminate].
  destruct (NewBundlerClient _ _ _ w3) as [[bc | e4] w4];
    [| destruct (Close networkRpc w4) as [? w5];
       destruct (Close paymasterRpc w5) as [? w6];
       destruct (Close networkRpc w6); discriminate].
  destruct (NewSmartAccountPrivateKeySigner _ _ _ w4) as [[signer | e5] w5];
    [| destruct (Close networkRpc w5) as [? w6];
       destruct (Close paymasterRpc w6) as [? w7];
       destruct (Close networkRpc w7); discriminate].
  intros [= <- <-]. cbn.
  repeat split; try assumption.
  - destruct (Z.ltb_spec 0 (cfg_ReceiptPollingDelaySeconds config)); lia.
  - destruct (Z.ltb_spec 0 (cfg_ReceiptPollingRetries config)); lia.
Qed.

End ConstructionFacts.

Lemma NewClient_refuses_incomplete_config_witness :
  (cfg_AccountPK configWithoutChain = None
   \/ cfg_PaymasterURL configWithoutChain = None
   \/ cfg_BundlerURL configWithoutChain = None
   \/ cfg_ChainID configWithoutChain = None
   \/ cfg_EntryPointVersion configWithoutChain <> EntryPointVersion07)
  /\ netNewClient noFailure configWithoutChain allUp = (Err requiredErr, allUp).
Proof.
  assert (H : cfg_AccountPK configWithoutChain = None
              \/ cfg_PaymasterURL configWithoutChain = None
              \/ cfg_BundlerURL configWithoutChain = None
              \/ cfg_ChainID configWithoutChain = None
              \/ cfg_EntryPointVersion configWithoutChain <> EntryPointVersion07)
    by (right; right; right; left; reflexivity).
  split; [exact H |].
  unfold netNewClient. apply NewClient_refuses_incomplete_config. exact H.
Defined.

Lemma NewClient_settings_witness :
  exists c w',
    netNewClient noFailure scenarioConfig allUp = (Ok c, w')
    /\ c_ReceiptPollingDelay c = 10 /\ c_ReceiptPollingRetries c = 24.
Proof.
  assert (Hok : failed noFailure allUp = false) by (vm_compute; reflexivity).
  unfold failed in Hok.
  destruct (netNewClient noFailure scenarioConfig allUp) as [[c | err] w'] eqn:Hrun;
    [| discriminate Hok].
  exists c, w'. split; [reflexivity |].
  unfold netNewClient in Hrun.
  destruct (NewClient_settings _ _ _ _ _ _ scenarioConfig allUp c w' Hrun)
    as (Hd & Hr & _).
  split; [exact Hd | exact Hr].
Defined.

(** ** Connections, again *)

Lemma released_after_close n :
  released [Opened n; Opened (S n); Opened (S (S n));
            Closed n; Closed (S n); Closed (S (S n))].
Proof.
  intros conn. unfold opened, closes. cbn [existsb filter].
  destruct (Nat.eqb_spec n conn), (Nat.eqb_spec (S n) conn),
    (Nat.eqb_spec (S (S n)) conn); cbn; try reflexivity; try discriminate; lia.
Qed.

(** X12. Whatever happened on the network before, a dial that fails in
    [NewClient] leaves no connection behind: a failed first dial changes
    nothing, a failed second dial closes the first connection, a failed
    third dial closes the second and then the first, each once. *)
Theorem NewClient_failed_dial_releases o (config : ClientConfig unit)
  pk purl burl chainID w :
  validConfig config pk purl burl chainID ->
  (accepts w (cfg_RpcURL config) = false ->
   netNewClient o config w
   = (Err (Wrap (ErrMsg "dial failed") "failed to connect to RPC"), w))
  /\ (accepts w (cfg_RpcURL config) = true -> accepts w purl = false ->
      exists w',
        netNewClient o config w
        = (Err (Wrap (ErrMsg "dial failed") "failed to connect to Paymaster"), w')
        /\ events w' = events w ++ [Opened (nextConn w); Closed (nextConn w)])
  /\ (accepts w (cfg_RpcURL config) = true -> accepts w purl = true ->
      accepts w burl = false ->
      exists w',
        netNewClient o config w
        = (Err (Wrap (ErrMsg "dial failed") "failed to connect to Bundler"), w')
        /\ events w' = events w ++ [Opened (nextConn w); Opened (S (nextConn w));
                                    Closed (S (nextConn w)); Closed (nextConn w)]).
Proof.
  intros (Hpk & Hpurl & Hburl & Hchain & Hver).
  unfold netNewClient, NewClient. rewrite Hpk, Hpurl, Hburl, Hchain, Hver.
  rewrite String.eqb_refl. unfold connect, bind, ret, netDial, netClose.
  split; [| split].
  - intros Hrpc. now rewrite Hrpc.
  - intros Hrpc Hpm. rewrite Hrpc. cbn [accepts record]. rewrite Hpm.
    eexists. split; [reflexivity |].
    cbn [events record nextConn]. now rewrite <- app_assoc.
  - intros Hrpc Hpm Hb. rewrite Hrpc. cbn [accepts record]. rewrite Hpm.
    cbn [accepts record]. rewrite Hb.
    eexists. split; [reflexivity |].
    cbn [events record nextConn]. now rewrite <- !app_assoc.
Qed.

Lemma NewClient_failed_dial_releases_witness :
  validConfig scenarioConfig tt "https://paymaster.example" "https://bundler.example" 137
  /\ exists w',
      netNewClient noFailure scenarioConfig (network ["https://rpc.example"%string])
      = (Err (Wrap (ErrMsg "dial failed") "failed to connect to Paymaster"), w')
      /\ events w' = [Opened 0; Closed 0].
Proof.
  assert (H : validConfig scenarioConfig tt
                "https://paymaster.example" "https://bundler.example" 137)
    by (repeat split).
  split; [exact H |].
  destruct (NewClient_failed_dial_releases noFailure scenarioConfig tt _ _ 137
              (network ["https://rpc.example"%string]) H) as (_ & Hpm & _).
  apply Hpm; reflexivity.
Defined.

(** [Close] on a client closes its three connections, in the order
    network, paymaster, bundler. *)
Lemma ClientClose_events (c : Client Net unit nat) w :
  events (snd (ClientClose netClose c w))
  = events w ++ [Closed (rc_Network (c_RpcClients c));
                 Closed (rc_Paymaster (c_RpcClients c));
                 Closed (rc_Bundler (c_RpcClients c))].
Proof.
  unfold ClientClose, bind, netClose. cbn [snd events record].
  now rewrite <- !app_assoc.
Qed.

(** X13. With the three endpoints reachable and no constructor failing,
    [NewClient] returns a client that holds three fresh connections,
    opened in the order network, paymaster, bundler and none closed;
    [Close] on that client closes each of the three once, so on a
    network without earlier events every connection ends up released. *)
Theorem NewClient_then_Close (config : ClientConfig unit) pk purl burl chainID w :
  validConfig config pk purl burl chainID ->
  accepts w (cfg_RpcURL config) = true -> accepts w purl = true ->
  accepts w burl = true ->
  exists c w1,
    netNewClient noFailure config w = (Ok c, w1)
    /\ c_RpcClients c = {| rc_Network := nextConn w;
                           rc_Paymaster := S (nextConn w);
                           rc_Bundler := S (S (nextConn w)) |}
    /\ events w1 = events w ++ [Opened (nextConn w); Opened (S (nextConn w));
                                Opened (S (S (nextConn w)))]
    /\ events (snd (ClientClose netClose c w1))
       = events w1 ++ [Closed (nextConn w); Closed (S (nextConn w));
                       Closed (S (S (nextConn w)))]
    /\ (events w = [] -> released (events (snd (ClientClose netClose c w1)))).
Proof.
  intros (Hpk & Hpurl & Hburl & Hchain & Hver) Hrpc Hpm Hb.
  unfold netNewClient, NewClient. rewrite Hpk, Hpurl, Hburl, Hchain, Hver.
  rewrite String.eqb_refl. unfold connect, bind, ret, netDial, outcome.
  rewrite Hrpc. cbn [accepts record]. rewrite Hpm. cbn [accepts record]. rewrite Hb.
  cbn [NewEntrypoint07 parseEntrypointAbi07 noFailure paymasterClientErr
       bundlerClientErr signerErr].
  eexists. eexists. split; [reflexivity |].
  cbn [c_RpcClients]. split; [reflexivity |].
  rewrite ClientClose_events.
  cbn [events record c_RpcClients rc_Network rc_Paymaster rc_Bundler].
  rewrite <- !app_assoc. cbn [app].
  split; [reflexivity |]. split; [reflexivity |].
  intros ->. apply released_after_close.
Qed.

Lemma NewClient_then_Close_witness :
  (validConfig scenarioConfig tt "https://paymaster.example" "https://bundler.example" 137
   /\ accepts allUp (cfg_RpcURL scenarioConfig) = true
   /\ accepts allUp "https://paymaster.example" = true
   /\ accepts allUp "https://bundler.example" = true)
  /\ exists c w1,
      netNewClient noFailure scenarioConfig allUp = (Ok c, w1)
      /\ events w1 = [Opened 0; Opened 1; Opened 2]
      /\ released (events (snd (ClientClose netClose c w1))).
Proof.
  assert (H : validConfig scenarioConfig tt
                "https://paymaster.example" "https://bundler.example" 137)
    by (repeat split).
  split; [repeat split; exact H |].
  destruct (NewClient_then_Close scenarioConfig tt _ _ 137 allUp H
              eq_refl eq_refl eq_refl) as (c & w1 & Hrun & _ & Hev & _ & Hrel).
  exists c, w1. split; [exact Hrun |]. split; [exact Hev |].
  apply Hrel. reflexivity.
Defined.

(** ** Building, signing and sending *)

Section Pipeline.

Context {World Receipt Conn : Type}.
Implicit Type c : Client World Receipt Conn.

(** X14. [GetUserOperationAndHashToSign] stops at the first call that
    fails and returns that call's error as it is, not wrapped: after a
    failed nonce lookup the bundler and the paymaster are not called,
    after a failed gas price request the paymaster is not called; the
    paymaster, when called, receives the operation with sender, nonce,
    call data and the standard tier's fees only. *)
Theorem build_stops_at_first_failure c sender callData w :
  (forall err w1,
      Entrypoint.GetNonce (c_EntryPoint c) sender w = (Err err, w1) ->
      GetUserOperationAndHashToSign c sender callData w = (Err err, w1))
  /\ (forall nonce w1 err w2,
        Entrypoint.GetNonce (c_EntryPoint c) sender w = (Ok nonce, w1) ->
        b_GetUserOperationGasPrice (c_BundlerClient c) w1 = (Err err, w2) ->
        GetUserOperationAndHashToSign c sender callData w = (Err err, w2))
  /\ (forall nonce w1 gasPrice w2 opBack err w3,
        Entrypoint.GetNonce (c_EntryPoint c) sender w = (Ok nonce, w1) ->
        b_GetUserOperationGasPrice (c_BundlerClient c) w1 = (Ok gasPrice, w2) ->
        pm_SponsorUserOperation (c_PaymasterClient c)
          (requestedOp sender nonce callData gasPrice) w2 = ((opBack, Err err), w3) ->
        GetUserOperationAndHashToSign c sender callData w = (Err err, w3)).
Proof.
  unfold GetUserOperationAndHashToSign, bind, ret. cbv zeta.
  split; [| split].
  - intros err w1 Hn. now rewrite Hn.
  - intros nonce w1 err w2 Hn Hg. now rewrite Hn, Hg.
  - intros nonce w1 gasPrice w2 opBack err w3 Hn Hg Hs. rewrite Hn, Hg.
    change (setFees _ _ (setIdentity sender nonce callData emptyOp))
      with (requestedOp sender nonce callData gasPrice).
    now rewrite Hs.
Qed.

(** X15. With the 0.7 gateway as entry point the hashing step cannot
    fail: when the nonce lookup, the gas price request and the
    sponsorship succeed, [GetUserOperationAndHashToSign] returns the
    operation the paymaster handed back with the response applied,
    together with its 32-byte hash under the gateway. *)
Theorem build_succeeds_with_gateway c (e : EntrypointClient07 World)
  sender callData w nonce w1 gasPrice w2 opBack sponsorResponse w3 :
  c_EntryPoint c = asEntrypoint e ->
  GetNonce e sender w = (Ok nonce, w1) ->
  b_GetUserOperationGasPrice (c_BundlerClient c) w1 = (Ok gasPrice, w2) ->
  pm_SponsorUserOperation (c_PaymasterClient c)
    (requestedOp sender nonce callData gasPrice) w2
  = ((opBack, Ok sponsorResponse), w3) ->
  exists opHash,
    GetUserOperationAndHashToSign c sender callData w
    = (Ok (setSponsorship sponsorResponse opBack, opHash), w3)
    /\ GetUserOperationHash e (setSponsorship sponsorResponse opBack) = Ok opHash
    /\ List.length opHash = 32%nat.
Proof.
  intros He Hn Hg Hs.
  destruct (PackUserOperation_total (setSponsorship sponsorResponse opBack))
    as [packed Hpacked].
  pose proof (GetUserOperationHash_of_packed e _ _ Hpacked) as Hhash.
  eexists. split; [| split; [exact Hhash | apply length_Keccak256]].
  unfold GetUserOperationAndHashToSign, bind, ret. cbv zeta.
  rewrite He. cbn [asEntrypoint Entrypoint.GetNonce Entrypoint.GetUserOperationHash].
  rewrite Hn, Hg.
  change (setFees _ _ (setIdentity sender nonce callData emptyOp))
    with (requestedOp sender nonce callData gasPrice).
  now rewrite Hs, Hhash.
Qed.

(** The hash that [GetUserOperationAndHashToSign] returns is the entry
    point's hash of the operation it returns. *)
Lemma build_returns_hash_of_operation c sender callData w op opHash w' :
  GetUserOperationAndHashToSign c sender callData w = (Ok (op, opHash), w') ->
  Entrypoint.GetUserOperationHash (c_EntryPoint c) op = Ok opHash.
Proof.
  unfold GetUserOperationAndHashToSign, bind, ret. cbv zeta.
  destruct (Entrypoint.GetNonce _ _ w) as [[nonce | e0] w0]; [| discriminate].
  destruct (b_GetUserOperationGasPrice _ w0) as [[gasPrice | e1] w1]; [| discriminate].
  destruct (pm_SponsorUserOperation _ _ w1) as [[opBack [resp | e2]] w2];
    [| discriminate].
  destruct (Entrypoint.GetUserOperationHash _ _) as [h | e3] eqn:Hhash;
    [| discriminate].
  now intros [= <- <- <-].
Qed.

(** X16. [SendUserOperation] submits the built operation with the
    signature set and nothing else changed; since the signature is not
    covered by the packing, the hash that was signed is still the hash
    of the operation that is submitted. When signing fails the error is
    returned and nothing is submitted. *)
Theorem SendUserOperation_signs_what_it_sends c (e : EntrypointClient07 World)
  callData waitForReceipt w op opHash w1 :
  c_EntryPoint c = asEntrypoint e ->
  GetUserOperationAndHashToSign c (s_GetAddress (c_Signer c)) callData w
  = (Ok (op, opHash), w1) ->
  (forall signature w2,
      s_SignUserOperationHash (c_Signer c) opHash w1 = (Ok signature, w2) ->
      SendUserOperation c callData waitForReceipt w
      = SendSignedUserOperation c (setSignature signature op) waitForReceipt w2
      /\ GetUserOperationHash e (setSignature signature op) = Ok opHash)
  /\ (forall err w2,
        s_SignUserOperationHash (c_Signer c) opHash w1 = (Err err, w2) ->
        SendUserOperation c callData waitForReceipt w = (Err err, w2)).
Proof.
  intros He Hbuild.
  pose proof (build_returns_hash_of_operation _ _ _ _ _ _ _ Hbuild) as Hhash.
  rewrite He in Hhash. cbn [asEntrypoint Entrypoint.GetUserOperationHash] in Hhash.
  unfold SendUserOperation, bind, ret. rewrite Hbuild. split.
  - intros signature w2 Hsign. rewrite Hsign. split; [reflexivity | exact Hhash].
  - intros err w2 Hsign. now rewrite Hsign.
Qed.

(** X17. Waiting for the receipt is the same as sending without
    waiting and then calling [GetUserOperationReceipt] on the result:
    same identifier, same receipt, same state of the world; only the
    error of the poll is lost. *)
Theorem waiting_is_polling_afterwards c signedOp w response w1 :
  b_SendUserOperation (c_BundlerClient c) signedOp w = (Ok response, w1) ->
  exists res,
    SendSignedUserOperation c signedOp false w = (Ok res, w1)
    /\ r_UserOperationHash res = response /\ r_Receipt res = None
    /\ SendSignedUserOperation c signedOp true w
       = (Ok {| r_UserOperationHash := response;
                r_Receipt := fst (fst (GetUserOperationReceipt c res w1)) |},
          snd (GetUserOperationReceipt c res w1)).
Proof.
  intros Hsend. unfold SendSignedUserOperation, GetUserOperationReceipt, bind, ret.
  rewrite Hsend. eexists. split; [reflexivity |].
  cbn [r_UserOperationHash r_Receipt]. split; [reflexivity |]. split; [reflexivity |].
  now destruct (b_GetUserOperationReceipt _ _ _ _ w1) as [polled w2].
Qed.

End Pipeline.

Lemma build_succeeds_with_gateway_witness :
  exists opHash,
    GetUserOperationAndHashToSign scenarioClient (repeat Byte.xaa 20)
      [Byte.xde; Byte.xad; Byte.xbe; Byte.xef] tt
    = (Ok (setSponsorship scenarioResponse
             (setGasLimits 7 7
                (requestedOp (repeat Byte.xaa 20) 0
                   [Byte.xde; Byte.xad; Byte.xbe; Byte.xef]
                   {| gpr_Standard := {| gp_MaxFeePerGas := 1000;
                                         gp_MaxPriorityFeePerGas := 100 |} |})),
           opHash), tt)
    /\ List.length opHash = 32%nat.
Proof.
  destruct (build_succeeds_with_gateway scenarioClient
              {| e_Client := answering []; e_Address := entryPointAddress07;
                 e_Abi := entrypointAbi07; e_ChainID := 137 |}
              (repeat Byte.xaa 20) [Byte.xde; Byte.xad; Byte.xbe; Byte.xef]
              tt 0 tt
              {| gpr_Standard := {| gp_MaxFeePerGas := 1000;
                                    gp_MaxPriorityFeePerGas := 100 |} |}
              tt
              (setGasLimits 7 7
                 (requestedOp (repeat Byte.xaa 20) 0
                    [Byte.xde; Byte.xad; Byte.xbe; Byte.xef]
                    {| gpr_Standard := {| gp_MaxFeePerGas := 1000;
                                          gp_MaxPriorityFeePerGas := 100 |} |}))
              scenarioResponse tt
              eq_refl ltac:(vm_compute; reflexivity) eq_refl eq_refl)
    as (opHash & Hrun & _ & Hlen).
  exists opHash. split; [exact Hrun | exact Hlen].
Defined.

(** The scenario's client builds the scenario's operation. *)
Lemma scenario_build :
  exists opHash,
    GetUserOperationAndHashToSign scenarioClient
      (s_GetAddress (c_Signer scenarioClient))
      [Byte.xde; Byte.xad; Byte.xbe; Byte.xef] tt = (Ok (scenarioOp, opHash), tt).
Proof. eexists. vm_compute. reflexivity. Qed.

Lemma SendUserOperation_signs_what_it_sends_witness :
  exists opHash,
    GetUserOperationAndHashToSign scenarioClient
      (s_GetAddress (c_Signer scenarioClient))
      [Byte.xde; Byte.xad; Byte.xbe; Byte.xef] tt = (Ok (scenarioOp, opHash), tt)
    /\ SendUserOperation scenarioClient [Byte.xde; Byte.xad; Byte.xbe; Byte.xef] true tt
       = SendSignedUserOperation scenarioClient (setSignature opHash scenarioOp) true tt
    /\ GetUserOperationHash
         {| e_Client := answering []; e_Address := entryPointAddress07;
            e_Abi := entrypointAbi07; e_ChainID := 137 |}
         (setSignature opHash scenarioOp) = Ok opHash.
Proof.
  destruct scenario_build as (opHash & Hrun).
  exists opHash. split; [exact Hrun |].
  destruct (SendUserOperation_signs_what_it_sends scenarioClient
              {| e_Client := answering []; e_Address := entryPointAddress07;
                 e_Abi := entrypointAbi07; e_ChainID := 137 |}
              [Byte.xde; Byte.xad; Byte.xbe; Byte.xef] true tt scenarioOp opHash tt
              eq_refl Hrun) as (Hsigned & _).
  apply (Hsigned opHash tt). reflexivity.
Defined.

Lemma waiting_is_polling_afterwards_witness :
  b_SendUserOperation (c_BundlerClient scenarioClient) scenarioOp tt = (Ok [Byte.x01], tt)
  /\ exists res,
      SendSignedUserOperation scenarioClient scenarioOp false tt = (Ok res, tt)
      /\ SendSignedUserOperation scenarioClient scenarioOp true tt
         = (Ok {| r_UserOperationHash := [Byte.x01];
                  r_Receipt := fst (fst (GetUserOperationReceipt scenarioClient res tt)) |},
            snd (GetUserOperationReceipt scenarioClient res tt)).
Proof.
  split; [reflexivity |].
  destruct (waiting_is_polling_afterwards scenarioClient scenarioOp tt [Byte.x01] tt
              eq_refl) as (res & Hfalse & _ & _ & Htrue).
  exists res. split; [exact Hfalse | exact Htrue].
Defined.
